(** * N2YO API access layer (api-client.ts): a shallow embedding

    The development follows the TypeScript class [N2YOApiClient]: its
    constructor, the private [makeRequest] with its retry loop for HTTP 429,
    the five query adapters and [searchSatellites].

    Modelling choices.
    - JavaScript values that flow through the client untyped (the parsed
      response body, typed [any] or only nominally typed in the source) are
      values of [jsval]; [VUndefined] is what reading an absent property
      yields.
    - A JavaScript number is modelled by the integer it denotes; the template
      literal [`${n}`] of such a number is its decimal numeral.
    - Strings are byte strings; [toLowerCase] maps the ASCII capitals and
      leaves every other byte alone.
    - The network is part of the [world]: a function from the index of the
      request and its URL to what axios observes, together with the
      chronological log of the requests sent and of the back-off sleeps. *)

From Stdlib Require Import String Ascii List ZArith Lia Bool Arith DecimalString.
From Stdlib Require Import DecimalPos DecimalZ.
From Equations Require Import Equations.
Import ListNotations.
Open Scope string_scope.

(** ** JavaScript values *)

#[local] Set Warnings "-register-all".

Inductive jsval : Type :=
| VUndefined
| VNull
| VBool (b : bool)
| VNum (n : Z)
| VStr (s : string)
| VArr (elts : list jsval)
| VObj (fields : list (string * jsval)).

(** [`${n}`] for an integral number. *)
Definition num (n : Z) : string := NilZero.string_of_int (Z.to_int n).

(** ToString, as applied by a template literal.  An array is joined with
    commas, [null] and [undefined] elements giving the empty string. *)
Fixpoint toString (v : jsval) : string :=
  match v with
  | VUndefined => "undefined"
  | VNull => "null"
  | VBool true => "true"
  | VBool false => "false"
  | VNum n => num n
  | VStr s => s
  | VArr elts =>
      let elt x := match x with VUndefined | VNull => "" | _ => toString x end in
      (fix join (l : list jsval) : string :=
         match l with
         | [] => ""
         | [x] => elt x
         | x :: rest => elt x ++ "," ++ join rest
         end) elts
  | VObj _ => "[object Object]"
  end.

(** ToBoolean. *)
Definition truthy (v : jsval) : bool :=
  match v with
  | VUndefined | VNull => false
  | VBool b => b
  | VNum n => negb (n =? 0)%Z
  | VStr s => negb (s =? "")
  | VArr _ | VObj _ => true
  end.

(** [a || b] on values. *)
Definition js_or (a b : jsval) : jsval := if truthy a then a else b.

(** Own-property lookup in a parsed JSON object. *)
Fixpoint lookup (k : string) (fields : list (string * jsval)) : option jsval :=
  match fields with
  | [] => None
  | (k', v) :: rest => if k' =? k then Some v else lookup k rest
  end.

(** ** Errors *)

(** The members of the SDK's [ErrorCode] that the client uses. *)
Inductive ErrorCode : Type := InvalidParams | InvalidRequest | InternalError.

Record AxiosResponse : Type := mkResponse { status : Z; data : jsval }.

(** What a [throw] can carry here: an axios error (with the response when one
    was received), an [McpError], the [TypeError] of reading a property of
    [null]/[undefined] or calling a non-function, and any other error the
    HTTP library raises. *)
Inductive exn : Type :=
| AxiosError (response : option AxiosResponse)
| McpError (code : ErrorCode) (message : string)
| TypeError
| OtherError (message : string).

Inductive result (A : Type) : Type :=
| Ok (a : A)
| Throw (e : exn).
Arguments Ok {A} a.
Arguments Throw {A} e.

Module ERROR_MESSAGES.
Definition MISSING_API_KEY := "N2YO API key is required".
Definition RATE_LIMIT_EXCEEDED := "Rate limit exceeded for N2YO API".
Definition INVALID_API_KEY := "Invalid N2YO API key".
Definition API_ERROR := "N2YO API error".
Definition NETWORK_ERROR := "Network error while connecting to N2YO API".
End ERROR_MESSAGES.

Module ENDPOINTS.
Definition TLE := "/tle/".
Definition POSITIONS := "/positions/".
Definition VISUAL_PASSES := "/visualpasses/".
Definition RADIO_PASSES := "/radiopasses/".
Definition ABOVE := "/above/".
End ENDPOINTS.

(** [v.k]: a [TypeError] on [null] and [undefined]; on a parsed object the
    field or [undefined]; on the other values [undefined] (none of the names
    read by the client is a prototype property). *)
Definition getProp (v : jsval) (k : string) : result jsval :=
  match v with
  | VUndefined | VNull => Throw TypeError
  | VObj fields =>
      match lookup k fields with Some x => Ok x | None => Ok VUndefined end
  | _ => Ok VUndefined
  end.

(** [v?.k] *)
Definition getPropOpt (v : jsval) (k : string) : result jsval :=
  match v with
  | VUndefined | VNull => Ok VUndefined
  | _ => getProp v k
  end.

(** ** The world: upstream and log *)

Inductive event : Type :=
| Get (url : string)
| Sleep (ms : Z).

(** What axios observes for one request. *)
Inductive outcome : Type :=
| Responds (r : AxiosResponse)
| NoResponse
| Fails (message : string).

Record world : Type := mkWorld {
  upstream : nat -> string -> outcome;
  log : list event
}.

Definition is_get (e : event) : bool :=
  match e with Get _ => true | Sleep _ => false end.

Definition requests (w : world) : list event := filter is_get (log w).

Definition record (e : event) (w : world) : world :=
  {| upstream := upstream w; log := log w ++ [e] |}.

Definition fresh (up : nat -> string -> outcome) : world :=
  {| upstream := up; log := [] |}.

(** Computations: state passing over the world, with exceptions. *)
Definition M (A : Type) : Type := world -> result A * world.

Definition ret {A} (a : A) : M A := fun w => (Ok a, w).
Definition throw {A} (e : exn) : M A := fun w => (Throw e, w).
Definition bind {A B} (m : M A) (k : A -> M B) : M B :=
  fun w =>
    match m w with
    | (Ok a, w') => k a w'
    | (Throw e, w') => (Throw e, w')
    end.
Definition lift {A} (r : result A) : M A := fun w => (r, w).

Notation "x <- c ;; k" := (bind c (fun x => k))
  (at level 61, c at next level, right associativity).

(** ** axios *)

(** The default [validateStatus]. *)
Definition validateStatus (s : Z) : bool := ((200 <=? s) && (s <? 300))%Z.

(** [axiosInstance.get(url, {})]: resolves with the response when its status
    passes [validateStatus], rejects with an [AxiosError] otherwise. *)
Definition axios_get (url : string) : M AxiosResponse :=
  fun w =>
    let w' := record (Get url) w in
    match upstream w (length (requests w)) url with
    | Responds r =>
        if validateStatus (status r) then (Ok r, w')
        else (Throw (AxiosError (Some r)), w')
    | NoResponse => (Throw (AxiosError None), w')
    | Fails msg => (Throw (OtherError msg), w')
    end.

(** [await new Promise(resolve => setTimeout(resolve, delay))] *)
Definition sleep (ms : Z) (w : world) : world := record (Sleep ms) w.

(** ** The client *)

Record AxiosInstance : Type := { baseURL : string; timeout : Z }.

Record N2YOApiClient : Type := {
  axiosInstance : AxiosInstance;
  apiKey : string;
  baseUrl : string;
  retryDelay : Z;
  maxRetries : nat
}.

(** The field initialisers and the body of the constructor after its guard. *)
Definition init (key : string) : N2YOApiClient :=
  let base := "https://api.n2yo.com/rest/v1/satellite" in
  {| axiosInstance := {| baseURL := base; timeout := 10000 |};
     apiKey := key;
     baseUrl := base;
     retryDelay := 1000;
     maxRetries := 3 |}.

(** [new N2YOApiClient(apiKey)]; [None] is an [undefined] argument.  The
    guard is [!apiKey]. *)
Definition constructor (key : option string) : M N2YOApiClient :=
  match key with
  | None => throw (McpError InvalidParams ERROR_MESSAGES.MISSING_API_KEY)
  | Some k =>
      if negb (truthy (VStr k)) then
        throw (McpError InvalidParams ERROR_MESSAGES.MISSING_API_KEY)
      else ret (init k)
  end.

Definition inspect {A} (a : A) : {b : A | a = b} := exist _ a eq_refl.

(** [axiosError.response?.status === s] *)
Definition status_is (response : option AxiosResponse) (s : Z) : bool :=
  match response with
  | Some r => (status r =? s)%Z
  | None => false
  end.

(** The part of the [catch] block after the retry test. *)
Definition fail_with (response : option AxiosResponse) : exn :=
  if status_is response 401 then
    McpError InvalidRequest ERROR_MESSAGES.INVALID_API_KEY
  else
    match response with
    | Some r =>
        McpError InternalError
          (ERROR_MESSAGES.API_ERROR ++ ": " ++ num (status r) ++ " - "
             ++ toString (data r))
    | None => McpError InternalError ERROR_MESSAGES.NETWORK_ERROR
    end.

(** [makeRequest(endpoint, params, retryCount)] *)
Equations? makeRequest (c : N2YOApiClient) (endpoint : string)
    (params : list (string * jsval)) (retryCount : nat) (w : world)
    : result jsval * world by wf (maxRetries c - retryCount) lt :=
makeRequest c endpoint params retryCount w
  with axios_get (endpoint ++ "/&apiKey=" ++ apiKey c) w => {
  | (Ok response, w1) => (Ok (data response), w1);
  | (Throw (AxiosError response), w1)
      with inspect (status_is response 429 && (retryCount <? maxRetries c)%nat) => {
      | exist _ true _ =>
          let delay := (retryDelay c * 2 ^ Z.of_nat retryCount)%Z in
          makeRequest c endpoint params (retryCount + 1) (sleep delay w1);
      | exist _ false _ => (Throw (fail_with response), w1) };
  | (Throw error, w1) => (Throw error, w1) }.
Proof.
  apply andb_prop in e as [_ Hlt]. apply Nat.ltb_lt in Hlt. lia.
Qed.

(** ** Parameter records of the adapters *)

Module PositionParams.
Record t : Type := mk {
  noradId : Z;
  observer_lat : Z;
  observer_lng : Z;
  observer_alt : option Z;
  seconds : option Z
}.
End PositionParams.

Module VisualPassesParams.
Record t : Type := mk {
  noradId : Z;
  observer_lat : Z;
  observer_lng : Z;
  observer_alt : option Z;
  days : option Z;
  min_visibility : option Z
}.
End VisualPassesParams.

Module RadioPassesParams.
Record t : Type := mk {
  noradId : Z;
  observer_lat : Z;
  observer_lng : Z;
  observer_alt : option Z;
  days : option Z;
  min_elevation : option Z
}.
End RadioPassesParams.

Module AboveParams.
Record t : Type := mk {
  observer_lat : Z;
  observer_lng : Z;
  observer_alt : option Z;
  search_radius : option Z;
  category_id : option Z
}.
End AboveParams.

(** A default of a destructuring pattern or of a parameter, [x = d]: it is
    taken when the value is [undefined], and only then. *)
Definition default (x : option Z) (d : Z) : Z :=
  match x with
  | Some v => v
  | None => d
  end.

(** ** The adapters *)

Record SatelliteTLE : Type := {
  satid : Z;
  satname : jsval;
  transactionscount : jsval;
  tle : jsval
}.

Definition getTLE_endpoint (noradId : Z) : string :=
  ENDPOINTS.TLE ++ "/" ++ num noradId.

Definition getTLE (c : N2YOApiClient) (noradId : Z) : M SatelliteTLE :=
  let endpoint := getTLE_endpoint noradId in
  response <- makeRequest c endpoint [] 0 ;;
  info <- lift (getProp response "info") ;;
  name <- lift (getPropOpt info "satname") ;;
  info' <- lift (getProp response "info") ;;
  count <- lift (getPropOpt info' "transactionscount") ;;
  lines <- lift (getProp response "tle") ;;
  ret {| satid := noradId;
         satname := js_or name (VStr ("Satellite " ++ num noradId));
         transactionscount := js_or count (VNum 0);
         tle := lines |}.

Definition getPositions_endpoint (params : PositionParams.t) : string :=
  let noradId := PositionParams.noradId params in
  let observer_lat := PositionParams.observer_lat params in
  let observer_lng := PositionParams.observer_lng params in
  let observer_alt := default (PositionParams.observer_alt params) 0 in
  let seconds := default (PositionParams.seconds params) 60 in
  ENDPOINTS.POSITIONS ++ "/" ++ num noradId ++ "/" ++ num observer_lat
    ++ "/" ++ num observer_lng ++ "/" ++ num observer_alt
    ++ "/" ++ num seconds.

Definition getPositions (c : N2YOApiClient) (params : PositionParams.t)
  : M jsval :=
  let endpoint := getPositions_endpoint params in
  response <- makeRequest c endpoint [] 0 ;;
  positions <- lift (getProp response "positions") ;;
  ret (js_or positions (VArr [])).

Definition getVisualPasses_endpoint (params : VisualPassesParams.t) : string :=
  let noradId := VisualPassesParams.noradId params in
  let observer_lat := VisualPassesParams.observer_lat params in
  let observer_lng := VisualPassesParams.observer_lng params in
  let observer_alt := default (VisualPassesParams.observer_alt params) 0 in
  let days := default (VisualPassesParams.days params) 7 in
  let min_visibility := default (VisualPassesParams.min_visibility params) 10 in
  ENDPOINTS.VISUAL_PASSES ++ "/" ++ num noradId ++ "/" ++ num observer_lat
    ++ "/" ++ num observer_lng ++ "/" ++ num observer_alt
    ++ "/" ++ num days ++ "/" ++ num min_visibility.

Definition getVisualPasses (c : N2YOApiClient) (params : VisualPassesParams.t)
  : M jsval :=
  let endpoint := getVisualPasses_endpoint params in
  response <- makeRequest c endpoint [] 0 ;;
  passes <- lift (getProp response "passes") ;;
  ret (js_or passes (VArr [])).

Definition getRadioPasses_endpoint (params : RadioPassesParams.t) : string :=
  let noradId := RadioPassesParams.noradId params in
  let observer_lat := RadioPassesParams.observer_lat params in
  let observer_lng := RadioPassesParams.observer_lng params in
  let observer_alt := default (RadioPassesParams.observer_alt params) 0 in
  let days := default (RadioPassesParams.days params) 7 in
  let min_elevation := default (RadioPassesParams.min_elevation params) 0 in
  ENDPOINTS.RADIO_PASSES ++ "/" ++ num noradId ++ "/" ++ num observer_lat
    ++ "/" ++ num observer_lng ++ "/" ++ num observer_alt
    ++ "/" ++ num days ++ "/" ++ num min_elevation.

Definition getRadioPasses (c : N2YOApiClient) (params : RadioPassesParams.t)
  : M jsval :=
  let endpoint := getRadioPasses_endpoint params in
  response <- makeRequest c endpoint [] 0 ;;
  passes <- lift (getProp response "passes") ;;
  ret (js_or passes (VArr [])).

Definition getAbove_endpoint (params : AboveParams.t) : string :=
  let observer_lat := AboveParams.observer_lat params in
  let observer_lng := AboveParams.observer_lng params in
  let observer_alt := default (AboveParams.observer_alt params) 0 in
  let search_radius := default (AboveParams.search_radius params) 90 in
  let category_id := default (AboveParams.category_id params) 0 in
  ENDPOINTS.ABOVE ++ "/" ++ num observer_lat ++ "/" ++ num observer_lng
    ++ "/" ++ num observer_alt ++ "/" ++ num search_radius
    ++ "/" ++ num category_id.

Definition getAbove (c : N2YOApiClient) (params : AboveParams.t) : M jsval :=
  let endpoint := getAbove_endpoint params in
  response <- makeRequest c endpoint [] 0 ;;
  above <- lift (getProp response "above") ;;
  ret (js_or above (VArr [])).

(** ** Derived search *)

(** [String.prototype.toLowerCase], on the ASCII letters. *)
Definition lower_ascii (a : ascii) : ascii :=
  let n := nat_of_ascii a in
  if ((65 <=? n) && (n <=? 90))%nat then ascii_of_nat (n + 32) else a.

Fixpoint toLowerCase (s : string) : string :=
  match s with
  | EmptyString => EmptyString
  | String a rest => String (lower_ascii a) (toLowerCase rest)
  end.

(** [s.includes(q)]: [q] occurs in [s] at some position. *)
Fixpoint includes (s q : string) : bool :=
  prefix q s
  || match s with
     | EmptyString => false
     | String _ rest => includes rest q
     end.

(** [v.toLowerCase()] on an untyped value: only a string has the method. *)
Definition call_toLowerCase (v : jsval) : result string :=
  match v with
  | VStr s => Ok (toLowerCase s)
  | _ => Throw TypeError
  end.

Definition rbind {A B} (r : result A) (k : A -> result B) : result B :=
  match r with
  | Ok a => k a
  | Throw e => Throw e
  end.

Notation "x <~ r ;; k" := (rbind r (fun x => k))
  (at level 61, r at next level, right associativity).

(** The callback of [filter] in [searchSatellites]; [||] evaluates its right
    operand only when the left one is false. *)
Definition matches (lowerQuery : string) (sat : jsval) : result bool :=
  name <~ getProp sat "satname" ;;
  lname <~ call_toLowerCase name ;;
  if includes lname lowerQuery then Ok true
  else
    designator <~ getProp sat "intDesignator" ;;
    ldesignator <~ call_toLowerCase designator ;;
    Ok (includes ldesignator lowerQuery).

Fixpoint filter_elts (p : jsval -> result bool) (elts : list jsval)
  : result (list jsval) :=
  match elts with
  | [] => Ok []
  | x :: rest =>
      keep <~ p x ;;
      kept <~ filter_elts p rest ;;
      Ok (if keep then x :: kept else kept)
  end.

(** [v.filter(p)]: only an array has the method. *)
Definition call_filter (v : jsval) (p : jsval -> result bool) : result jsval :=
  match v with
  | VArr elts => kept <~ filter_elts p elts ;; Ok (VArr kept)
  | _ => Throw TypeError
  end.

Definition searchSatellites_params (category_id : option Z) : AboveParams.t :=
  let category_id := default category_id 0 in
  {| AboveParams.observer_lat := 0;
     AboveParams.observer_lng := 0;
     AboveParams.observer_alt := None;
     AboveParams.search_radius := Some 90%Z;
     AboveParams.category_id := Some category_id |}.

Definition searchSatellites (c : N2YOApiClient) (searchQuery : string)
    (category_id : option Z) : M jsval :=
  let params := searchSatellites_params category_id in
  satellites <- getAbove c params ;;
  if truthy (VStr searchQuery) then
    let lowerQuery := toLowerCase searchQuery in
    lift (call_filter satellites (matches lowerQuery))
  else ret satellites.

(** ** The inbound interface: one call per public method *)

Inductive call : Type :=
| CallTLE (noradId : Z)
| CallPositions (params : PositionParams.t)
| CallVisualPasses (params : VisualPassesParams.t)
| CallRadioPasses (params : RadioPassesParams.t)
| CallAbove (params : AboveParams.t)
| CallSearch (searchQuery : string) (category_id : option Z).

Inductive answer : Type :=
| Record_ (r : SatelliteTLE)
| Sequence (v : jsval).

Definition invoke (c : N2YOApiClient) (q : call) : M answer :=
  match q with
  | CallTLE noradId => r <- getTLE c noradId ;; ret (Record_ r)
  | CallPositions params => v <- getPositions c params ;; ret (Sequence v)
  | CallVisualPasses params => v <- getVisualPasses c params ;; ret (Sequence v)
  | CallRadioPasses params => v <- getRadioPasses c params ;; ret (Sequence v)
  | CallAbove params => v <- getAbove c params ;; ret (Sequence v)
  | CallSearch searchQuery category_id =>
      v <- searchSatellites c searchQuery category_id ;; ret (Sequence v)
  end.

(** The endpoint path that a call hands to [makeRequest]. *)
Definition endpoint_of (q : call) : string :=
  match q with
  | CallTLE noradId => getTLE_endpoint noradId
  | CallPositions params => getPositions_endpoint params
  | CallVisualPasses params => getVisualPasses_endpoint params
  | CallRadioPasses params => getRadioPasses_endpoint params
  | CallAbove params => getAbove_endpoint params
  | CallSearch _ category_id =>
      getAbove_endpoint (searchSatellites_params category_id)
  end.

(** ** Error kinds, as the values the client throws *)

Definition ConfigurationError : exn :=
  McpError InvalidParams ERROR_MESSAGES.MISSING_API_KEY.
Definition InvalidCredential : exn :=
  McpError InvalidRequest ERROR_MESSAGES.INVALID_API_KEY.
Definition NetworkError : exn :=
  McpError InternalError ERROR_MESSAGES.NETWORK_ERROR.
Definition UpstreamError (r : AxiosResponse) : exn :=
  McpError InternalError
    (ERROR_MESSAGES.API_ERROR ++ ": " ++ num (status r) ++ " - "
       ++ toString (data r)).
(** An error that reports the rate limit carries the message the source
    reserves for it. *)
Definition is_RateLimitExceeded (e : exn) : bool :=
  match e with
  | McpError _ message => message =? ERROR_MESSAGES.RATE_LIMIT_EXCEEDED
  | _ => false
  end.



(** ** The retry loop in closed form *)

(** The answer is a 429 response. *)
Definition is_429 (o : outcome) : bool :=
  match o with
  | Responds r => (status r =? 429)%Z
  | NoResponse | Fails _ => false
  end.

(** How many of the answers from request [i] on are 429 in a row, counting
    at most [budget] of them. *)
Fixpoint leading_429 (up : nat -> string -> outcome) (url : string)
    (i budget : nat) : nat :=
  match budget with
  | 0 => 0
  | S budget' =>
      if is_429 (up i url) then S (leading_429 up url (S i) budget') else 0
  end.

(** What a call ends in when the answer is not retried. *)
Definition settle (o : outcome) : result jsval :=
  match o with
  | Responds r =>
      if validateStatus (status r) then Ok (data r)
      else Throw (fail_with (Some r))
  | NoResponse => Throw (fail_with None)
  | Fails message => Throw (OtherError message)
  end.

(** The events of a call that retries [k] times, its first request being
    attempt number [first]: a request, then [k] times a sleep and a request,
    the sleeps doubling from [delay * 2^first]. *)
Fixpoint schedule (url : string) (delay : Z) (first k : nat) : list event :=
  match k with
  | 0 => [Get url]
  | S k' =>
      Get url :: Sleep (delay * 2 ^ Z.of_nat first)
        :: schedule url delay (S first) k'
  end.

(** The time slept, in ms. *)
Definition slept (l : list event) : Z :=
  fold_right (fun e acc => match e with Sleep ms => ms + acc | Get _ => acc end)%Z
    0%Z l.

(** ** Vocabulary of the properties *)

(** A path segment for an optional parameter with a documented default. *)
Definition segment (supplied : option Z) (documented : Z) : string :=
  match supplied with
  | Some v => num v
  | None => num documented
  end.

(** A path: the root followed by its segments, each behind a slash. *)
Definition path (root : string) (segments : list string) : string :=
  fold_left (fun acc s => acc ++ "/" ++ s) segments root.

(** The envelope field that a list-returning call unwraps. *)
Definition list_field (q : call) : option string :=
  match q with
  | CallPositions _ => Some "positions"
  | CallVisualPasses _ | CallRadioPasses _ => Some "passes"
  | CallAbove _ => Some "above"
  | CallTLE _ | CallSearch _ _ => None
  end.

(** A string-valued field of a record received from upstream. *)
Definition field_string (k : string) (sat : jsval) : option string :=
  match sat with
  | VObj fields =>
      match lookup k fields with
      | Some (VStr s) => Some s
      | _ => None
      end
  | _ => None
  end.




(** The character [a] occurs in [s]. *)
Fixpoint mentions (a : ascii) (s : string) : bool :=
  match s with
  | EmptyString => false
  | String b rest => (a =? b)%char || mentions a rest
  end.

(** The errors that a call on a constructed client can end in. *)
Inductive thrown_by_call : exn -> Prop :=
| thrown_invalid_credential : thrown_by_call InvalidCredential
| thrown_upstream r : thrown_by_call (UpstreamError r)
| thrown_network : thrown_by_call NetworkError
| thrown_type : thrown_by_call TypeError
| thrown_other message : thrown_by_call (OtherError message).

(** Errors raised for a missing credential. *)
Definition is_ConfigurationError (e : exn) : bool :=
  match e with
  | McpError InvalidParams _ => true
  | _ => false
  end.

(** ** Sample upstreams *)

Definition three_429_then_payload : nat -> string -> outcome :=
  fun n _ =>
    if (n <? 3)%nat then Responds (mkResponse 429 (VStr "Too Many Requests"))
    else Responds (mkResponse 200 (VObj [("tle", VStr "1 25544U")])).

Definition iss_and_noaa : list jsval :=
  [ VObj [("satid", VNum 25544); ("satname", VStr "ISS (ZARYA)");
          ("intDesignator", VStr "1998-067A")];
    VObj [("satid", VNum 33591); ("satname", VStr "NOAA 19");
          ("intDesignator", VStr "2009-005A")] ].

Definition above_equator : nat -> string -> outcome :=
  fun _ _ =>
    Responds (mkResponse 200
                (VObj [("info", VObj [("satcount", VNum 2)]);
                       ("above", VArr iss_and_noaa)])).

Definition no_above_field : nat -> string -> outcome :=
  fun _ _ =>
    Responds (mkResponse 200 (VObj [("info", VObj [("satcount", VNum 0)])])).

Definition tle_with_empty_name : nat -> string -> outcome :=
  fun _ _ =>
    Responds (mkResponse 200
                (VObj [("info", VObj [("satid", VNum 25544);
                                      ("satname", VStr "");
                                      ("transactionscount", VNum 0)]);
                       ("tle", VStr "1 25544U")])).

(** [l1] is [l2] with some elements left out, the order kept. *)
Inductive subsequence {A : Type} : list A -> list A -> Prop :=
| subsequence_nil : subsequence [] []
| subsequence_keep x l1 l2 : subsequence l1 l2 -> subsequence (x :: l1) (x :: l2)
| subsequence_drop x l1 l2 : subsequence l1 l2 -> subsequence l1 (x :: l2).

(** Upstream records of which the second has no name. *)
Definition iss_and_nameless : list jsval :=
  [ VObj [("satid", VNum 25544); ("satname", VStr "ISS (ZARYA)");
          ("intDesignator", VStr "1998-067A")];
    VObj [("satid", VNum 33591); ("intDesignator", VStr "2009-005A")] ].

Definition above_with_nameless : nat -> string -> outcome :=
  fun _ _ =>
    Responds (mkResponse 200 (VObj [("above", VArr iss_and_nameless)])).

Definition null_body : nat -> string -> outcome :=
  fun _ _ => Responds (mkResponse 200 VNull).



(** * The tool and resource layer

    The callers of the client: the tools of tools/satellite-tle.ts,
    tools/satellites-above.ts, tools/satellite-search-by-name.ts and
    tools/satellite-search-by-category.ts, with tools/tool-utils.ts, and the
    resource of resources/category.ts.  The category table and
    [formatSatelliteData] are repeated in several of these files, each copy
    the same.  A tool answers with
    [JSON.stringify(payload, null, 2)] wrapped as text content, the resource
    with the string itself; the model returns the [payload].  Writes to
    [console.error] are left out. *)

(** [CATEGORY_MAPPING] *)
Definition CATEGORY_MAPPING : list (Z * string) :=
  [ (0, "All"); (1, "Amateur"); (2, "CubeSat"); (3, "Education");
    (4, "Engineering"); (5, "Galileo"); (6, "GLO-OPS"); (7, "GPS-OPS");
    (8, "Military"); (9, "Radar"); (10, "Resource"); (11, "SARSAT");
    (12, "Science"); (13, "TDRSS"); (14, "Weather"); (15, "XM/Sirius");
    (16, "Iridium-NEXT"); (17, "Globalstar"); (18, "Intelsat"); (19, "SES");
    (20, "Telesat"); (21, "Orbcomm"); (22, "Gorizont"); (23, "Raduga");
    (24, "Molniya"); (25, "DMC"); (26, "Argos"); (27, "Planet");
    (28, "Spire"); (29, "Starlink"); (30, "OneWeb") ]%Z.

(** [CATEGORY_MAPPING[id]] *)
Fixpoint mapping_get (id : Z) (mapping : list (Z * string)) : jsval :=
  match mapping with
  | [] => VUndefined
  | (k, name) :: rest => if (k =? id)%Z then VStr name else mapping_get id rest
  end.

(** [CATEGORY_MAPPING[id] || `Unknown (${id})`] *)
Definition category_label (id : Z) : jsval :=
  js_or (mapping_get id CATEGORY_MAPPING)
    (VStr ("Unknown (" ++ num id ++ ")")).

(** [Number.isInteger] of a number; every number of the model is one. *)
Definition Number_isInteger (n : Z) : bool := true.

(** An optional argument as a value. *)
Definition optional (x : option Z) : jsval :=
  match x with
  | Some v => VNum v
  | None => VUndefined
  end.

(** [formatSatelliteData(satellite)] *)
Definition formatSatelliteData (satellite : jsval) : result jsval :=
  satid <~ getProp satellite "satid" ;;
  name <~ getProp satellite "satname" ;;
  designator <~ getProp satellite "intDesignator" ;;
  launched <~ getProp satellite "launchDate" ;;
  lat <~ getProp satellite "satlat" ;;
  lng <~ getProp satellite "satlng" ;;
  alt <~ getProp satellite "satalt" ;;
  Ok (VObj [ ("norad_id", satid);
             ("name", name);
             ("international_designator", designator);
             ("launch_date", launched);
             ("position", VObj [ ("latitude", lat);
                                 ("longitude", lng);
                                 ("altitude", alt) ]) ]).

Fixpoint map_elts (f : jsval -> result jsval) (elts : list jsval)
  : result (list jsval) :=
  match elts with
  | [] => Ok []
  | x :: rest =>
      y <~ f x ;;
      ys <~ map_elts f rest ;;
      Ok (y :: ys)
  end.

(** [v.map(f)]: only an array has the method. *)
Definition call_map (v : jsval) (f : jsval -> result jsval)
  : result (list jsval) :=
  match v with
  | VArr elts => map_elts f elts
  | _ => Throw TypeError
  end.

(** [v.length] *)
Definition get_length (v : jsval) : result jsval :=
  match v with
  | VUndefined | VNull => Throw TypeError
  | VArr elts => Ok (VNum (Z.of_nat (length elts)))
  | VStr s => Ok (VNum (Z.of_nat (String.length s)))
  | VObj _ => getProp v "length"
  | VBool _ | VNum _ => Ok VUndefined
  end.

(** [v === n] for a number [n] *)
Definition strict_eq_num (v : jsval) (n : Z) : bool :=
  match v with
  | VNum m => (m =? n)%Z
  | _ => false
  end.

(** [!v || v.length === 0] *)
Definition no_results (v : jsval) : result bool :=
  if negb (truthy v) then Ok true
  else l <~ get_length v ;; Ok (strict_eq_num l 0).

(** [s.split('\r\n')] *)
Fixpoint split_crlf (s : string) : list string :=
  match s with
  | EmptyString => [EmptyString]
  | String a rest =>
      let cons_char :=
        match split_crlf rest with
        | [] => [String a EmptyString]
        | part :: parts => String a part :: parts
        end in
      match rest with
      | String b rest' =>
          if ((a =? "013") && (b =? "010"))%char
          then EmptyString :: split_crlf rest'
          else cons_char
      | EmptyString => cons_char
      end
  end.

(** [lines[i] || ''] *)
Definition line_or_empty (lines : list string) (i : nat) : jsval :=
  js_or (match nth_error lines i with
         | Some l => VStr l
         | None => VUndefined
         end) (VStr "").

(** [s.startsWith(p)] with the rest of [s]. *)
Fixpoint strip_prefix (p s : string) : option string :=
  match p, s with
  | EmptyString, _ => Some s
  | String a p', String b s' =>
      if (a =? b)%char then strip_prefix p' s' else None
  | String _ _, EmptyString => None
  end.

(** [uri.match(/^<prefix>(\d+)$/)] followed by [parseInt(match[1], 10)]:
    the URI is the prefix and then one digit or more up to its end; the
    number is their decimal value. *)
Definition match_number (prefix uri : string) : option Z :=
  match strip_prefix prefix uri with
  | Some digits => option_map Z.of_uint (NilZero.uint_of_string digits)
  | None => None
  end.

Module AboveArgs.
Record t : Type := mk {
  observer_lat : Z;
  observer_lng : Z;
  observer_alt : option Z;
  search_radius : option Z;
  category_id : option Z
}.
End AboveArgs.

Section Tools.

(** [(error as Error).message] for a thrown value that is not an
    [McpError]: the wording is the engine's or the library's. *)
Variable message_of : exn -> string.

(** [new Date().toISOString()] at the time the answer is built. *)
Variable now : string.

(** The [catch] block shared by the tools: an [McpError] is rethrown, any
    other error becomes an internal [McpError] with the given prefix. *)
Definition rethrow_as {A} (prefix : string) (m : M A) : M A :=
  fun w =>
    match m w with
    | (Ok a, w') => (Ok a, w')
    | (Throw (McpError code message), w') =>
        (Throw (McpError code message), w')
    | (Throw error, w') =>
        (Throw (McpError InternalError (prefix ++ message_of error)), w')
    end.

(** [getSatelliteTLETool(apiClient, { norad_id })] *)
Definition getSatelliteTLETool (apiClient : N2YOApiClient) (norad_id : Z)
  : M jsval :=
  rethrow_as "Error retrieving satellite TLE data: "
    (if negb (Number_isInteger norad_id) || (norad_id <=? 0)%Z then
       throw (McpError InvalidParams
                "Invalid NORAD ID. Must be a positive integer.")
     else
       tleData <- getTLE apiClient norad_id ;;
       if negb (truthy (tle tleData)) then
         throw (McpError InvalidRequest
                  ("No TLE data found for satellite with NORAD ID: "
                     ++ num norad_id))
       else
         match tle tleData with
         | VStr text =>
             let tleLines := split_crlf text in
             ret (VObj [ ("satellite_id", VNum norad_id);
                         ("satellite_name", satname tleData);
                         ("tle", VObj [ ("line1", line_or_empty tleLines 0);
                                        ("line2", line_or_empty tleLines 1);
                                        ("line3", line_or_empty tleLines 2) ]);
                         ("updated", VStr now) ])
         | _ => throw TypeError
         end).

(** The payload shared by the two branches of [getSatellitesAboveTool]. *)
Definition above_payload (args : AboveArgs.t) (rest : list (string * jsval))
  : jsval :=
  VObj ([ ("observer",
           VObj [ ("latitude", VNum (AboveArgs.observer_lat args));
                  ("longitude", VNum (AboveArgs.observer_lng args));
                  ("altitude",
                   js_or (optional (AboveArgs.observer_alt args)) (VNum 0)) ]);
          ("search_radius",
           js_or (optional (AboveArgs.search_radius args)) (VNum 90));
          ("category",
           match AboveArgs.category_id args with
           | Some id => category_label id
           | None => VStr "All"
           end) ] ++ rest)%list.

(** [getSatellitesAboveTool(apiClient, args)] *)
Definition getSatellitesAboveTool (apiClient : N2YOApiClient)
    (args : AboveArgs.t) : M jsval :=
  let observer_lat := AboveArgs.observer_lat args in
  let observer_lng := AboveArgs.observer_lng args in
  let observer_alt := AboveArgs.observer_alt args in
  let search_radius := AboveArgs.search_radius args in
  let category_id := AboveArgs.category_id args in
  rethrow_as "Error retrieving satellites above: "
    (if (observer_lat <? -90)%Z || (observer_lat >? 90)%Z then
       throw (McpError InvalidParams
                "Invalid latitude. Must be between -90 and 90.")
     else if (observer_lng <? -180)%Z || (observer_lng >? 180)%Z then
       throw (McpError InvalidParams
                "Invalid longitude. Must be between -180 and 180.")
     else if match search_radius with
             | Some r => (r <? 0)%Z || (r >? 90)%Z
             | None => false
             end then
       throw (McpError InvalidParams
                "Invalid search_radius. Must be between 0 and 90 degrees.")
     else if match category_id with
             | Some id =>
                 negb (Number_isInteger id) || (id <? 0)%Z || (id >? 30)%Z
             | None => false
             end then
       throw (McpError InvalidParams
                "Invalid category_id. Must be an integer between 0 and 30.")
     else
       let params :=
         {| AboveParams.observer_lat := observer_lat;
            AboveParams.observer_lng := observer_lng;
            AboveParams.observer_alt := observer_alt;
            AboveParams.search_radius := search_radius;
            AboveParams.category_id := category_id |} in
       satellites <- getAbove apiClient params ;;
       none <- lift (no_results satellites) ;;
       if none then
         ret (above_payload args
                [ ("satellites", VArr []);
                  ("count", VNum 0);
                  ("message",
                   VStr "No satellites found above the specified location.") ])
       else
         formattedSatellites <- lift (call_map satellites formatSatelliteData) ;;
         ret (above_payload args
                [ ("satellites", VArr formattedSatellites);
                  ("count", VNum (Z.of_nat (length formattedSatellites)));
                  ("timestamp", VStr now) ])).

(** [searchSatellitesByNameTool(apiClient, { query })] *)
Definition searchSatellitesByNameTool (apiClient : N2YOApiClient)
    (query : string) : M jsval :=
  rethrow_as "Error searching for satellites by name: "
    (satellites <- searchSatellites apiClient query None ;;
     none <- lift (no_results satellites) ;;
     if none then
       ret (VObj [ ("query", VStr query);
                   ("category", VNull);
                   ("satellites", VArr []);
                   ("count", VNum 0);
                   ("message",
                    VStr "No satellites found matching the search name.") ])
     else
       formattedSatellites <- lift (call_map satellites formatSatelliteData) ;;
       ret (VObj [ ("query", VStr query);
                   ("category", VNull);
                   ("satellites", VArr formattedSatellites);
                   ("count", VNum (Z.of_nat (length formattedSatellites)));
                   ("timestamp", VStr now) ])).

(** [searchSatellitesByCategoryTool(apiClient, { category_id })]; [None] is
    an [undefined] argument. *)
Definition searchSatellitesByCategoryTool (apiClient : N2YOApiClient)
    (category_id : option Z) : M jsval :=
  rethrow_as "Error searching for satellites by category: "
    (match category_id with
     | None =>
         throw (McpError InvalidParams
                  "Invalid category_id. Must be an integer between 0 and 30.")
     | Some id =>
         if negb (Number_isInteger id) || (id <? 0)%Z || (id >? 30)%Z then
           throw (McpError InvalidParams
                    "Invalid category_id. Must be an integer between 0 and 30.")
         else
           satellites <- searchSatellites apiClient "" (Some id) ;;
           let categoryName := category_label id in
           none <- lift (no_results satellites) ;;
           if none then
             ret (VObj [ ("query", VNull);
                         ("category", categoryName);
                         ("satellites", VArr []);
                         ("count", VNum 0);
                         ("message",
                          VStr ("No satellites found in category: "
                                  ++ toString categoryName ++ ".")) ])
           else
             formattedSatellites <-
               lift (call_map satellites formatSatelliteData) ;;
             ret (VObj [ ("query", VNull);
                         ("category", categoryName);
                         ("satellites", VArr formattedSatellites);
                         ("count", VNum (Z.of_nat (length formattedSatellites)));
                         ("timestamp", VStr now) ])
     end).

(** [getSatellitesCategoryResource(apiClient, uri)] *)
Definition getSatellitesCategoryResource (apiClient : N2YOApiClient)
    (uri : string) : M jsval :=
  rethrow_as "Error retrieving satellites by category: "
    (match match_number "satellites://category/" uri with
     | None =>
         throw (McpError InvalidRequest
                  ("Invalid satellites category resource URI: " ++ uri))
     | Some categoryId =>
         if negb (Number_isInteger categoryId)
            || (categoryId <? 0)%Z || (categoryId >? 30)%Z then
           throw (McpError InvalidParams
                    "Invalid category ID. Must be an integer between 0 and 30.")
         else
           let params :=
             {| AboveParams.observer_lat := 0;
                AboveParams.observer_lng := 0;
                AboveParams.observer_alt := None;
                AboveParams.search_radius := Some 90%Z;
                AboveParams.category_id := Some categoryId |} in
           satellites <- getAbove apiClient params ;;
           none <- lift (no_results satellites) ;;
           if none then
             ret (VObj [ ("category_id", VNum categoryId);
                         ("category_name", category_label categoryId);
                         ("satellites", VArr []);
                         ("count", VNum 0);
                         ("message",
                          VStr ("No satellites found in category: "
                                  ++ toString
                                       (js_or
                                          (mapping_get categoryId CATEGORY_MAPPING)
                                          (VNum categoryId))));
                         ("timestamp", VStr now) ])
           else
             formattedSatellites <-
               lift (call_map satellites formatSatelliteData) ;;
             ret (VObj [ ("category_id", VNum categoryId);
                         ("category_name", category_label categoryId);
                         ("satellites", VArr formattedSatellites);
                         ("count", VNum (Z.of_nat (length formattedSatellites)));
                         ("timestamp", VStr now) ])
     end).

End Tools.

(** ** Vocabulary for the tool layer *)

(** One call of a tool or of the category resource. *)
Inductive tool_call : Type :=
| ToolTLE (norad_id : Z)
| ToolAbove (args : AboveArgs.t)
| ToolSearchByName (query : string)
| ToolSearchByCategory (category_id : option Z)
| ResourceCategory (uri : string).

Definition run_tool (message_of : exn -> string) (now : string)
    (apiClient : N2YOApiClient) (t : tool_call) : M jsval :=
  match t with
  | ToolTLE norad_id => getSatelliteTLETool message_of now apiClient norad_id
  | ToolAbove args => getSatellitesAboveTool message_of now apiClient args
  | ToolSearchByName query =>
      searchSatellitesByNameTool message_of now apiClient query
  | ToolSearchByCategory category_id =>
      searchSatellitesByCategoryTool message_of now apiClient category_id
  | ResourceCategory uri =>
      getSatellitesCategoryResource message_of now apiClient uri
  end.

(** [lo <= x <= hi] for an argument that may be left out. *)
Definition within (lo hi : Z) (x : option Z) : bool :=
  match x with
  | Some v => ((lo <=? v) && (v <=? hi))%Z
  | None => true
  end.

(** The client call that a tool call comes down to when its arguments are
    in range; [None] when they are not. *)
Definition request_of (t : tool_call) : option call :=
  match t with
  | ToolTLE norad_id =>
      if (0 <? norad_id)%Z then Some (CallTLE norad_id) else None
  | ToolAbove args =>
      if within (-90) 90 (Some (AboveArgs.observer_lat args))
         && within (-180) 180 (Some (AboveArgs.observer_lng args))
         && within 0 90 (AboveArgs.search_radius args)
         && within 0 30 (AboveArgs.category_id args)
      then Some (CallAbove
                   (AboveParams.mk (AboveArgs.observer_lat args)
                      (AboveArgs.observer_lng args)
                      (AboveArgs.observer_alt args)
                      (AboveArgs.search_radius args)
                      (AboveArgs.category_id args)))
      else None
  | ToolSearchByName query => Some (CallSearch query None)
  | ToolSearchByCategory None => None
  | ToolSearchByCategory (Some id) =>
      if within 0 30 (Some id) then Some (CallSearch "" (Some id)) else None
  | ResourceCategory uri =>
      match match_number "satellites://category/" uri with
      | Some id =>
          if within 0 30 (Some id)
          then Some (CallAbove (AboveParams.mk 0 0 None (Some 90%Z) (Some id)))
          else None
      | None => None
      end
  end.

(** Carriage return and line feed. *)
Definition CRLF : string := String "013" (String "010" EmptyString).

(** A sample wording of the messages of other errors. *)
Definition engine_message (e : exn) : string :=
  match e with
  | OtherError message => message
  | _ => "Cannot read properties of null"
  end.

Definition two_line_tle : nat -> string -> outcome :=
  fun _ _ =>
    Responds (mkResponse 200
                (VObj [("info", VObj [("satname", VStr "ISS (ZARYA)")]);
                       ("tle", VStr ("1 25544U 98067A" ++ CRLF
                                       ++ "2 25544  51.6"))])).

(** The answer to a search for "noaa" over [iss_and_noaa]. *)
Definition noaa_answer : jsval :=
  VObj [ ("query", VStr "noaa"); ("category", VNull);
         ("satellites",
          VArr [ VObj [ ("norad_id", VNum 33591); ("name", VStr "NOAA 19");
                        ("international_designator", VStr "2009-005A");
                        ("launch_date", VUndefined);
                        ("position",
                         VObj [ ("latitude", VUndefined);
                                ("longitude", VUndefined);
                                ("altitude", VUndefined) ]) ] ]);
         ("count", VNum 1);
         ("timestamp", VStr "2026-11-03T00:00:00.000Z") ].

(** The answer of the category tool for Starlink when nothing is above. *)
Definition starlink_fields : list (string * jsval) :=
  [ ("query", VNull); ("category", VStr "Starlink");
    ("satellites", VArr []); ("count", VNum 0);
    ("message", VStr "No satellites found in category: Starlink.") ].

(** * Properties *)

(** ** The transport core *)

(** [makeRequest] unfolds to the body of the source method. *)
Lemma makeRequest_eq c endpoint params retryCount w :
  makeRequest c endpoint params retryCount w =
  match axios_get (endpoint ++ "/&apiKey=" ++ apiKey c) w with
  | (Ok response, w1) => (Ok (data response), w1)
  | (Throw (AxiosError response), w1) =>
      if status_is response 429 && (retryCount <? maxRetries c)%nat then
        makeRequest c endpoint params (retryCount + 1)
          (sleep (retryDelay c * 2 ^ Z.of_nat retryCount) w1)
      else (Throw (fail_with response), w1)
  | (Throw error, w1) => (Throw error, w1)
  end.
Proof.
  rewrite makeRequest_equation_1.
  destruct (axios_get _ w) as [[response | error] w1].
  - reflexivity.
  - destruct error; try reflexivity.
    cbn [makeRequest_unfold_clause_1].
    destruct (inspect (status_is response 429 && (retryCount <? maxRetries c)%nat))
      as [[|] E]; cbn [makeRequest_unfold_clause_1_clause_2]; rewrite E;
      reflexivity.
Qed.

Lemma requests_record_get url w :
  requests (record (Get url) w) = (requests w ++ [Get url])%list.
Proof. unfold requests, record; simpl. now rewrite filter_app. Qed.

Lemma requests_sleep ms w : requests (sleep ms w) = requests w.
Proof.
  unfold requests, sleep, record; simpl.
  rewrite filter_app; simpl. apply app_nil_r.
Qed.

(** A rejected status, as axios reports it. *)
Lemma axios_get_rejected url w r :
  upstream w (length (requests w)) url = Responds r ->
  validateStatus (status r) = false ->
  axios_get url w = (Throw (AxiosError (Some r)), record (Get url) w).
Proof. intros Hup Hst. unfold axios_get. now rewrite Hup, Hst. Qed.

Lemma axios_get_resolved url w r :
  upstream w (length (requests w)) url = Responds r ->
  validateStatus (status r) = true ->
  axios_get url w = (Ok r, record (Get url) w).
Proof. intros Hup Hst. unfold axios_get. now rewrite Hup, Hst. Qed.

(** One round of the retry loop: a 429 while the budget lasts sends the
    request, sleeps [retryDelay * 2^retryCount] and tries again. *)
Lemma makeRequest_retry c endpoint params retryCount w r :
  upstream w (length (requests w)) (endpoint ++ "/&apiKey=" ++ apiKey c)
    = Responds r ->
  status r = 429%Z ->
  retryCount < maxRetries c ->
  makeRequest c endpoint params retryCount w =
  makeRequest c endpoint params (retryCount + 1)
    (sleep (retryDelay c * 2 ^ Z.of_nat retryCount)
       (record (Get (endpoint ++ "/&apiKey=" ++ apiKey c)) w)).
Proof.
  intros Hup Hst Hlt.
  rewrite makeRequest_eq.
  rewrite (axios_get_rejected _ _ _ Hup) by now rewrite Hst.
  unfold status_is. rewrite Hst; simpl.
  apply Nat.ltb_lt in Hlt. now rewrite Hlt.
Qed.

(** A rejected response that is not retried ends the call. *)
Lemma makeRequest_fail c endpoint params retryCount w r :
  upstream w (length (requests w)) (endpoint ++ "/&apiKey=" ++ apiKey c)
    = Responds r ->
  validateStatus (status r) = false ->
  status r <> 429%Z \/ maxRetries c <= retryCount ->
  makeRequest c endpoint params retryCount w =
  (Throw (fail_with (Some r)),
   record (Get (endpoint ++ "/&apiKey=" ++ apiKey c)) w).
Proof.
  intros Hup Hst Hno.
  rewrite makeRequest_eq, (axios_get_rejected _ _ _ Hup Hst).
  replace (status_is (Some r) 429 && (retryCount <? maxRetries c)%nat)
    with false; [reflexivity|].
  symmetry. apply andb_false_iff. destruct Hno as [Hne | Hge].
  - left. now apply Z.eqb_neq.
  - right. now apply Nat.ltb_ge.
Qed.

Lemma makeRequest_success c endpoint params retryCount w r :
  upstream w (length (requests w)) (endpoint ++ "/&apiKey=" ++ apiKey c)
    = Responds r ->
  validateStatus (status r) = true ->
  makeRequest c endpoint params retryCount w =
  (Ok (data r), record (Get (endpoint ++ "/&apiKey=" ++ apiKey c)) w).
Proof.
  intros Hup Hst.
  now rewrite makeRequest_eq, (axios_get_resolved _ _ _ Hup Hst).
Qed.

(** The answer to a later attempt: the index of the request is the number of
    requests logged so far. *)
Ltac at_index H :=
  rewrite <- H; unfold sleep, record; cbn [upstream]; f_equal;
  unfold requests; cbn [log]; rewrite ?filter_app, ?length_app; simpl; lia.

(** When every attempt is answered 429, the fourth attempt is the last and
    the error is the one built for any rejected status. *)
Lemma makeRequest_always_429 key endpoint params w r1 r2 r3 r4 :
  upstream w (length (requests w)) (endpoint ++ "/&apiKey=" ++ key)
    = Responds r1 ->
  upstream w (length (requests w) + 1) (endpoint ++ "/&apiKey=" ++ key)
    = Responds r2 ->
  upstream w (length (requests w) + 2) (endpoint ++ "/&apiKey=" ++ key)
    = Responds r3 ->
  upstream w (length (requests w) + 3) (endpoint ++ "/&apiKey=" ++ key)
    = Responds r4 ->
  status r1 = 429%Z -> status r2 = 429%Z ->
  status r3 = 429%Z -> status r4 = 429%Z ->
  makeRequest (init key) endpoint params 0 w =
  (Throw (UpstreamError r4),
   {| upstream := upstream w;
      log := (log w ++
              [Get (endpoint ++ "/&apiKey=" ++ key); Sleep 1000;
               Get (endpoint ++ "/&apiKey=" ++ key); Sleep 2000;
               Get (endpoint ++ "/&apiKey=" ++ key); Sleep 4000;
               Get (endpoint ++ "/&apiKey=" ++ key)])%list |}).
Proof.
  intros H1 H2 H3 H4 S1 S2 S3 S4.
  rewrite (makeRequest_retry _ _ _ _ _ r1) by (simpl; auto).
  rewrite (makeRequest_retry _ _ _ _ _ r2);
    [ | at_index H2
      | exact S2 | simpl; lia ].
  rewrite (makeRequest_retry _ _ _ _ _ r3);
    [ | at_index H3
      | exact S3 | simpl; lia ].
  rewrite (makeRequest_fail _ _ _ _ _ r4);
    [ | at_index H4
      | now rewrite S4 | right; simpl; lia ].
  unfold fail_with, status_is, UpstreamError. rewrite S4. simpl Z.eqb. cbv iota.
  f_equal. unfold sleep, record; simpl.
  now rewrite <- !app_assoc.
Qed.

(** C1, evaluated on the code: against an upstream that answers 429 to every
    request, [makeRequest] sends four requests with sleeps of 1000, 2000 and
    4000 ms between them, and what it then throws is the error of a generic
    upstream failure ("N2YO API error: 429 - ..."); that error does not carry
    the rate-limit message. *)
Theorem always_429_is_reported_as_generic_error :
  makeRequest (init "KEY") "/tle//25544" [] 0
    (fresh (fun _ _ => Responds (mkResponse 429 (VStr "Too Many Requests"))))
  = (Throw (UpstreamError (mkResponse 429 (VStr "Too Many Requests"))),
     {| upstream :=
          fun _ _ => Responds (mkResponse 429 (VStr "Too Many Requests"));
        log := [Get "/tle//25544/&apiKey=KEY"; Sleep 1000;
                Get "/tle//25544/&apiKey=KEY"; Sleep 2000;
                Get "/tle//25544/&apiKey=KEY"; Sleep 4000;
                Get "/tle//25544/&apiKey=KEY"] |})
  /\ UpstreamError (mkResponse 429 (VStr "Too Many Requests"))
     = McpError InternalError "N2YO API error: 429 - Too Many Requests"
  /\ is_RateLimitExceeded
       (UpstreamError (mkResponse 429 (VStr "Too Many Requests"))) = false.
Proof.
  split; [ | split; reflexivity ].
  apply (makeRequest_always_429 "KEY" "/tle//25544" []
           (fresh (fun _ _ =>
                     Responds (mkResponse 429 (VStr "Too Many Requests"))))
           (mkResponse 429 (VStr "Too Many Requests"))
           (mkResponse 429 (VStr "Too Many Requests"))
           (mkResponse 429 (VStr "Too Many Requests"))
           (mkResponse 429 (VStr "Too Many Requests")));
    reflexivity.
Qed.

(** C2: when the first three attempts are answered 429 and the fourth is a
    success, the call sleeps 1000, 2000 and 4000 ms between the attempts and
    returns the payload of the fourth response. *)
Theorem backoff_schedule_then_payload key endpoint params w r1 r2 r3 r4 :
  upstream w (length (requests w)) (endpoint ++ "/&apiKey=" ++ key)
    = Responds r1 ->
  upstream w (length (requests w) + 1) (endpoint ++ "/&apiKey=" ++ key)
    = Responds r2 ->
  upstream w (length (requests w) + 2) (endpoint ++ "/&apiKey=" ++ key)
    = Responds r3 ->
  upstream w (length (requests w) + 3) (endpoint ++ "/&apiKey=" ++ key)
    = Responds r4 ->
  status r1 = 429%Z -> status r2 = 429%Z -> status r3 = 429%Z ->
  validateStatus (status r4) = true ->
  makeRequest (init key) endpoint params 0 w =
  (Ok (data r4),
   {| upstream := upstream w;
      log := (log w ++
              [Get (endpoint ++ "/&apiKey=" ++ key); Sleep (1000 * 2 ^ 0);
               Get (endpoint ++ "/&apiKey=" ++ key); Sleep (1000 * 2 ^ 1);
               Get (endpoint ++ "/&apiKey=" ++ key); Sleep (1000 * 2 ^ 2);
               Get (endpoint ++ "/&apiKey=" ++ key)])%list |})
  /\ (1000 * 2 ^ 0 = 1000 /\ 1000 * 2 ^ 1 = 2000 /\ 1000 * 2 ^ 2 = 4000)%Z.
Proof.
  intros H1 H2 H3 H4 S1 S2 S3 S4.
  split; [ | repeat split ].
  rewrite (makeRequest_retry _ _ _ _ _ r1) by (simpl; auto).
  rewrite (makeRequest_retry _ _ _ _ _ r2);
    [ | at_index H2
      | exact S2 | simpl; lia ].
  rewrite (makeRequest_retry _ _ _ _ _ r3);
    [ | at_index H3
      | exact S3 | simpl; lia ].
  rewrite (makeRequest_success _ _ _ _ _ r4);
    [ | at_index H4
      | exact S4 ].
  f_equal. unfold sleep, record; simpl.
  now rewrite <- !app_assoc.
Qed.

Lemma backoff_schedule_then_payload_witness :
  makeRequest (init "KEY") "/tle//25544" [] 0 (fresh three_429_then_payload)
  = (Ok (VObj [("tle", VStr "1 25544U")]),
     {| upstream := three_429_then_payload;
        log := [Get "/tle//25544/&apiKey=KEY"; Sleep 1000;
                Get "/tle//25544/&apiKey=KEY"; Sleep 2000;
                Get "/tle//25544/&apiKey=KEY"; Sleep 4000;
                Get "/tle//25544/&apiKey=KEY"] |}).
Proof.
  exact (proj1 (backoff_schedule_then_payload "KEY" "/tle//25544" []
    (fresh three_429_then_payload)
    (mkResponse 429 (VStr "Too Many Requests"))
    (mkResponse 429 (VStr "Too Many Requests"))
    (mkResponse 429 (VStr "Too Many Requests"))
    (mkResponse 200 (VObj [("tle", VStr "1 25544U")]))
    eq_refl eq_refl eq_refl eq_refl eq_refl eq_refl eq_refl eq_refl)).
Defined.

(** C5: a 401 answer to the first attempt ends the call at once with the
    invalid-credential error; that request is the only one sent and no sleep
    takes place. *)
Theorem unauthorized_fails_without_retry key endpoint params w r :
  upstream w (length (requests w)) (endpoint ++ "/&apiKey=" ++ key)
    = Responds r ->
  status r = 401%Z ->
  makeRequest (init key) endpoint params 0 w =
  (Throw InvalidCredential,
   {| upstream := upstream w;
      log := (log w ++ [Get (endpoint ++ "/&apiKey=" ++ key)])%list |}).
Proof.
  intros Hup Hst.
  rewrite (makeRequest_fail (init key) endpoint params 0 w r Hup);
    [ | now rewrite Hst | left; rewrite Hst; discriminate ].
  unfold fail_with, status_is. now rewrite Hst.
Qed.

Lemma unauthorized_fails_without_retry_witness :
  makeRequest (init "KEY") "/tle//25544" [("unused", VNull)] 0
    (fresh (fun _ _ => Responds (mkResponse 401 (VStr "Unauthorized"))))
  = (Throw (McpError InvalidRequest "Invalid N2YO API key"),
     {| upstream := fun _ _ => Responds (mkResponse 401 (VStr "Unauthorized"));
        log := [Get "/tle//25544/&apiKey=KEY"] |}).
Proof.
  exact (unauthorized_fails_without_retry "KEY" "/tle//25544"
           [("unused", VNull)]
           (fresh (fun _ _ => Responds (mkResponse 401 (VStr "Unauthorized"))))
           (mkResponse 401 (VStr "Unauthorized")) eq_refl eq_refl).
Defined.

(** C9: [makeRequest] never reads its [params] argument: two calls that
    differ only there send the same requests, sleep the same delays and end
    in the same result or error. *)
Theorem makeRequest_ignores_params c endpoint params1 params2 retryCount w :
  makeRequest c endpoint params1 retryCount w
  = makeRequest c endpoint params2 retryCount w.
Proof.
  remember (maxRetries c - retryCount) as budget eqn:Hb.
  revert retryCount w Hb.
  induction budget as [budget IH] using lt_wf_ind.
  intros retryCount w Hb.
  rewrite (makeRequest_eq c endpoint params1), (makeRequest_eq c endpoint params2).
  destruct (axios_get _ w) as [[response | error] w1]; [reflexivity|].
  destruct error as [response | | | ]; try reflexivity.
  destruct (status_is response 429) eqn:Hs; [ | reflexivity ].
  destruct (retryCount <? maxRetries c)%nat eqn:Hlt; [ | reflexivity ].
  simpl. apply Nat.ltb_lt in Hlt.
  apply (IH (maxRetries c - (retryCount + 1))); [ lia | reflexivity ].
Qed.

(** ** Requests sent by a call *)

(** Every request of one [makeRequest] call has the same URL: the endpoint
    followed by the marker and the key; there are as many as attempts, at
    least one and at most one more than the retries left. *)
Lemma makeRequest_requests c endpoint params :
  forall budget retryCount w,
    maxRetries c - retryCount = budget ->
    exists n,
      1 <= n <= S budget /\
      requests (snd (makeRequest c endpoint params retryCount w))
      = (requests w ++ repeat (Get (endpoint ++ "/&apiKey=" ++ apiKey c)) n)%list.
Proof.
  induction budget as [budget IH] using lt_wf_ind.
  intros retryCount w Hb.
  rewrite makeRequest_eq.
  assert (Hget : snd (axios_get (endpoint ++ "/&apiKey=" ++ apiKey c) w)
                 = record (Get (endpoint ++ "/&apiKey=" ++ apiKey c)) w).
  { unfold axios_get.
    destruct (upstream w _ _) as [r | | ]; [ destruct (validateStatus _) | | ];
      reflexivity. }
  destruct (axios_get _ w) as [[response | error] w1]; cbn [snd] in Hget;
    subst w1.
  - exists 1. split; [lia|]. cbn [snd repeat]. apply requests_record_get.
  - destruct error as [response | | | ];
      try (exists 1; split; [lia|]; cbn [snd repeat];
           apply requests_record_get).
    destruct (status_is response 429 && (retryCount <? maxRetries c)%nat) eqn:Hc.
    + apply andb_prop in Hc as [_ Hlt]. apply Nat.ltb_lt in Hlt.
      destruct (IH (maxRetries c - (retryCount + 1)) ltac:(lia) (retryCount + 1)
                  (sleep (retryDelay c * 2 ^ Z.of_nat retryCount)
                     (record (Get (endpoint ++ "/&apiKey=" ++ apiKey c)) w))
                  eq_refl) as [n [Hn Hreq]].
      exists (S n). split; [lia|].
      rewrite Hreq, requests_sleep, requests_record_get, <- app_assoc.
      reflexivity.
    + exists 1. split; [lia|]. cbn [snd repeat]. apply requests_record_get.
Qed.

(** The lookups and the filtering after the transport call leave the world
    alone: the world after a call is the world after its [makeRequest]. *)
Lemma bind_lift_snd {A B} (r : result A) (k : A -> M B) w :
  (forall a w', snd (k a w') = w') ->
  snd ((x <- lift r ;; k x) w) = w.
Proof. intros Hk. unfold bind, lift. destruct r; simpl; auto. Qed.

Lemma bind_snd {A B} (m : M A) (k : A -> M B) w :
  (forall a w', snd (k a w') = w') ->
  snd ((x <- m ;; k x) w) = snd (m w).
Proof. intros Hk. unfold bind. destruct (m w) as [[a | e] w']; simpl; auto. Qed.

Lemma ret_snd {A} (a : A) w : snd (ret a w) = w.
Proof. reflexivity. Qed.

Lemma lift_snd {A} (r : result A) w : snd (lift r w) = w.
Proof. reflexivity. Qed.

Ltac world_after :=
  repeat first
    [ apply ret_snd | apply lift_snd
    | apply bind_lift_snd; intros
    | match goal with |- snd ((if ?b then _ else _) _) = _ => destruct b end ].

Lemma getAbove_world c params w :
  snd (getAbove c params w)
  = snd (makeRequest c (getAbove_endpoint params) [] 0 w).
Proof. unfold getAbove. apply bind_snd. intros. world_after. Qed.

Lemma invoke_world c q w :
  snd (invoke c q w) = snd (makeRequest c (endpoint_of q) [] 0 w).
Proof.
  destruct q; simpl.
  - unfold getTLE. rewrite bind_snd; [ apply bind_snd | ]; intros; world_after.
  - unfold getPositions.
    rewrite bind_snd; [ apply bind_snd | ]; intros; world_after.
  - unfold getVisualPasses.
    rewrite bind_snd; [ apply bind_snd | ]; intros; world_after.
  - unfold getRadioPasses.
    rewrite bind_snd; [ apply bind_snd | ]; intros; world_after.
  - rewrite bind_snd; [ apply getAbove_world | ]; intros; world_after.
  - unfold searchSatellites.
    rewrite bind_snd; [ rewrite bind_snd; [ apply getAbove_world | ] | ];
      intros; world_after.
Qed.

Lemma mentions_app a s1 s2 :
  mentions a (s1 ++ s2) = mentions a s1 || mentions a s2.
Proof.
  induction s1 as [| b s1 IH]; simpl; [ reflexivity | ].
  now rewrite IH, orb_assoc.
Qed.

Lemma includes_char s a : includes s (String a "") = mentions a s.
Proof.
  induction s as [| b s IH]; [ reflexivity | ].
  cbn [includes mentions prefix]. rewrite IH.
  destruct (Ascii.ascii_dec a b) as [<- | Hne].
  - rewrite Ascii.eqb_refl. now destruct s.
  - apply Ascii.eqb_neq in Hne. now rewrite Hne.
Qed.

(** A decimal numeral has no ampersand. *)
Lemma mentions_amp_uint d : mentions "&" (NilEmpty.string_of_uint d) = false.
Proof. induction d; simpl; auto. Qed.

Lemma mentions_amp_num n : mentions "&" (num n) = false.
Proof.
  unfold num, NilZero.string_of_int, NilZero.string_of_uint.
  destruct (Z.to_int n) as [d | d]; destruct d; simpl; auto;
    apply mentions_amp_uint.
Qed.

Lemma endpoint_without_amp q : includes (endpoint_of q) "&" = false.
Proof.
  rewrite includes_char.
  destruct q; cbn [endpoint_of];
    unfold getTLE_endpoint, getPositions_endpoint, getVisualPasses_endpoint,
      getRadioPasses_endpoint, getAbove_endpoint;
    rewrite !mentions_app, !mentions_amp_num; reflexivity.
Qed.

(** C4: whatever the upstream answers, the requests that a call adds to the
    log are between one and four copies of one URL, the endpoint path of the
    call followed by ["/&apiKey="] and the key: every attempt carries the key
    once, in the trailing marker, and the path before the marker has no
    ampersand of its own. *)
Theorem every_attempt_carries_the_key key q w :
  exists n,
    1 <= n <= 4 /\
    requests (snd (invoke (init key) q w))
    = (requests w ++ repeat (Get (endpoint_of q ++ "/&apiKey=" ++ key)) n)%list
    /\ includes (endpoint_of q) "&" = false.
Proof.
  rewrite invoke_world.
  destruct (makeRequest_requests (init key) (endpoint_of q) [] 3 0 w eq_refl)
    as [n [Hn Hreq]].
  exists n. split; [ lia | split; [ exact Hreq | apply endpoint_without_amp ] ].
Qed.

(** The first thing a [makeRequest] call does is to send its request. *)
Lemma makeRequest_log c endpoint params :
  forall budget retryCount w,
    maxRetries c - retryCount = budget ->
    exists rest,
      log (snd (makeRequest c endpoint params retryCount w))
      = (log w ++ Get (endpoint ++ "/&apiKey=" ++ apiKey c) :: rest)%list.
Proof.
  induction budget as [budget IH] using lt_wf_ind.
  intros retryCount w Hb.
  rewrite makeRequest_eq.
  assert (Hget : snd (axios_get (endpoint ++ "/&apiKey=" ++ apiKey c) w)
                 = record (Get (endpoint ++ "/&apiKey=" ++ apiKey c)) w).
  { unfold axios_get.
    destruct (upstream w _ _) as [r | | ]; [ destruct (validateStatus _) | | ];
      reflexivity. }
  destruct (axios_get _ w) as [[response | error] w1]; cbn [snd] in Hget;
    subst w1.
  - exists []. reflexivity.
  - destruct error as [response | | | ]; try (exists []; reflexivity).
    destruct (status_is response 429 && (retryCount <? maxRetries c)%nat) eqn:Hc.
    + apply andb_prop in Hc as [_ Hlt]. apply Nat.ltb_lt in Hlt.
      destruct (IH (maxRetries c - (retryCount + 1)) ltac:(lia) (retryCount + 1)
                  (sleep (retryDelay c * 2 ^ Z.of_nat retryCount)
                     (record (Get (endpoint ++ "/&apiKey=" ++ apiKey c)) w))
                  eq_refl) as [rest Hlog].
      exists (Sleep (retryDelay c * 2 ^ Z.of_nat retryCount)
                :: Get (endpoint ++ "/&apiKey=" ++ apiKey c) :: rest).
      rewrite Hlog. unfold sleep, record; cbn [log].
      now rewrite <- !app_assoc.
    + exists []. reflexivity.
Qed.

(** ** The adapters *)

Lemma append_assoc (s1 s2 s3 : string) : (s1 ++ s2) ++ s3 = s1 ++ s2 ++ s3.
Proof. induction s1 as [| a s1 IH]; simpl; [ | rewrite IH ]; reflexivity. Qed.

Ltac path_eq := unfold path; cbn [fold_left]; rewrite !append_assoc; reflexivity.

(** C3: in the path of every adapter each optional numeric parameter
    contributes the caller's value when one is supplied, zero included, and
    its documented default when it is omitted; the path so built is the one
    requested.  For [getPositions]: 0 and 60 when altitude and seconds are
    omitted, the supplied 5000 and 120 otherwise. *)
Theorem defaults_apply_only_to_omitted_parameters :
  (forall id lat lng alt seconds,
      getPositions_endpoint (PositionParams.mk id lat lng alt seconds)
      = path "/positions/"
          [num id; num lat; num lng; segment alt 0; segment seconds 60])
  /\ (forall id lat lng alt days vis,
      getVisualPasses_endpoint (VisualPassesParams.mk id lat lng alt days vis)
      = path "/visualpasses/"
          [num id; num lat; num lng; segment alt 0; segment days 7;
           segment vis 10])
  /\ (forall id lat lng alt days elev,
      getRadioPasses_endpoint (RadioPassesParams.mk id lat lng alt days elev)
      = path "/radiopasses/"
          [num id; num lat; num lng; segment alt 0; segment days 7;
           segment elev 0])
  /\ (forall lat lng alt radius category,
      getAbove_endpoint (AboveParams.mk lat lng alt radius category)
      = path "/above/"
          [num lat; num lng; segment alt 0; segment radius 90;
           segment category 0])
  /\ (forall v d, segment (Some v) d = num v)
  /\ (forall d, segment None d = num d)
  /\ (forall c q w, exists rest,
        log (snd (invoke c q w))
        = (log w ++ Get (endpoint_of q ++ "/&apiKey=" ++ apiKey c) :: rest)%list)
  /\ getPositions_endpoint (PositionParams.mk 25544 41 (-71) None None)
     = "/positions//25544/41/-71/0/60"
  /\ getPositions_endpoint
       (PositionParams.mk 25544 41 (-71) (Some 5000%Z) (Some 120%Z))
     = "/positions//25544/41/-71/5000/120"
  /\ getPositions_endpoint
       (PositionParams.mk 25544 41 (-71) (Some 0%Z) (Some 0%Z))
     = "/positions//25544/41/-71/0/0".
Proof.
  repeat split.
  - intros id lat lng [alt|] [seconds|]; path_eq.
  - intros id lat lng [alt|] [days|] [vis|]; path_eq.
  - intros id lat lng [alt|] [days|] [elev|]; path_eq.
  - intros lat lng [alt|] [radius|] [category|]; path_eq.
  - intros c q w. rewrite invoke_world.
    apply (makeRequest_log c (endpoint_of q) [] (maxRetries c - 0) 0 w eq_refl).
Qed.

(** C7: when the transport core hands a list-returning adapter an envelope
    in which the list field is absent or is the empty array, the adapter
    returns the empty sequence and throws nothing. *)
Theorem absent_or_empty_list_gives_empty_sequence c q field fields w w' :
  list_field q = Some field ->
  makeRequest c (endpoint_of q) [] 0 w = (Ok (VObj fields), w') ->
  lookup field fields = None \/ lookup field fields = Some (VArr []) ->
  invoke c q w = (Ok (Sequence (VArr [])), w').
Proof.
  intros Hq Hreq Hfield.
  destruct q; simpl in Hq; try discriminate; injection Hq as <-;
    simpl in Hreq; simpl;
    unfold getPositions, getVisualPasses, getRadioPasses, getAbove, bind, lift;
    rewrite Hreq; simpl;
    destruct Hfield as [H | H]; rewrite H; reflexivity.
Qed.

Lemma absent_or_empty_list_gives_empty_sequence_witness :
  invoke (init "KEY") (CallAbove (AboveParams.mk 41 (-71) None None None))
    (fresh no_above_field)
  = (Ok (Sequence (VArr [])),
     {| upstream := no_above_field;
        log := [Get "/above//41/-71/0/90/0/&apiKey=KEY"] |}).
Proof.
  apply (absent_or_empty_list_gives_empty_sequence (init "KEY")
           (CallAbove (AboveParams.mk 41 (-71) None None None)) "above"
           [("info", VObj [("satcount", VNum 0)])]).
  - reflexivity.
  - reflexivity.
  - left. reflexivity.
Defined.

(** ** Errors of a call *)

Lemma fail_with_thrown response : thrown_by_call (fail_with response).
Proof.
  unfold fail_with. destruct (status_is response 401).
  - apply thrown_invalid_credential.
  - destruct response as [r | ]; [ apply (thrown_upstream r) | apply thrown_network ].
Qed.

Lemma makeRequest_thrown c endpoint params :
  forall budget retryCount w e,
    maxRetries c - retryCount = budget ->
    fst (makeRequest c endpoint params retryCount w) = Throw e ->
    thrown_by_call e.
Proof.
  induction budget as [budget IH] using lt_wf_ind.
  intros retryCount w e Hb.
  rewrite makeRequest_eq. unfold axios_get.
  destruct (upstream w _ _) as [r | | message].
  - destruct (validateStatus (status r)); [ discriminate | ].
    destruct (status_is (Some r) 429 && (retryCount <? maxRetries c)%nat) eqn:Hc.
    + apply andb_prop in Hc as [_ Hlt]. apply Nat.ltb_lt in Hlt.
      apply (IH (maxRetries c - (retryCount + 1))); [ lia | reflexivity ].
    + intros [= <-]. apply fail_with_thrown.
  - simpl. intros [= <-]. apply thrown_network.
  - intros [= <-]. apply thrown_other.
Qed.

Lemma getProp_thrown v k e : getProp v k = Throw e -> thrown_by_call e.
Proof.
  destruct v; simpl; try discriminate; try (intros [= <-]; apply thrown_type).
  destruct (lookup k fields); discriminate.
Qed.

Lemma getPropOpt_thrown v k e : getPropOpt v k = Throw e -> thrown_by_call e.
Proof.
  destruct v; simpl; try discriminate.
  destruct (lookup k fields); discriminate.
Qed.

Lemma call_toLowerCase_thrown v e :
  call_toLowerCase v = Throw e -> thrown_by_call e.
Proof.
  destruct v; simpl; try discriminate; intros [= <-]; apply thrown_type.
Qed.

Lemma rbind_thrown {A B} (r : result A) (k : A -> result B) e :
  rbind r k = Throw e ->
  r = Throw e \/ exists a, r = Ok a /\ k a = Throw e.
Proof.
  destruct r as [a | e']; simpl; intros H.
  - right. exists a. split; [ reflexivity | exact H ].
  - left. now injection H as ->.
Qed.

Lemma matches_thrown lowerQuery sat e :
  matches lowerQuery sat = Throw e -> thrown_by_call e.
Proof.
  unfold matches. intros H.
  apply rbind_thrown in H as [H | [name [_ H]]];
    [ now apply getProp_thrown in H | ].
  apply rbind_thrown in H as [H | [lname [_ H]]];
    [ now apply call_toLowerCase_thrown in H | ].
  destruct (includes lname lowerQuery); [ discriminate | ].
  apply rbind_thrown in H as [H | [designator [_ H]]];
    [ now apply getProp_thrown in H | ].
  apply rbind_thrown in H as [H | [ldesignator [_ H]]];
    [ now apply call_toLowerCase_thrown in H | discriminate ].
Qed.

Lemma filter_elts_thrown lowerQuery elts e :
  filter_elts (matches lowerQuery) elts = Throw e -> thrown_by_call e.
Proof.
  induction elts as [| x rest IH]; simpl; [ discriminate | ].
  intros H.
  apply rbind_thrown in H as [H | [keep [_ H]]];
    [ now apply matches_thrown in H | ].
  apply rbind_thrown in H as [H | [kept [_ H]]]; [ auto | discriminate ].
Qed.

Lemma call_filter_thrown lowerQuery v e :
  call_filter v (matches lowerQuery) = Throw e -> thrown_by_call e.
Proof.
  destruct v; simpl; try (intros [= <-]; apply thrown_type).
  intros H. apply rbind_thrown in H as [H | [kept [_ H]]];
    [ now apply filter_elts_thrown in H | discriminate ].
Qed.

Lemma bind_thrown {A B} (m : M A) (k : A -> M B) w e :
  fst ((x <- m ;; k x) w) = Throw e ->
  fst (m w) = Throw e \/ exists a w', fst (k a w') = Throw e.
Proof.
  unfold bind. destruct (m w) as [[a | e'] w']; simpl; intros H.
  - right. exists a, w'. exact H.
  - left. now injection H as ->.
Qed.

Lemma lift_thrown {A} (r : result A) w e :
  fst (lift r w) = Throw e -> r = Throw e.
Proof. auto. Qed.

Ltac thrown_step H :=
  apply bind_thrown in H as [H | [? [? H]]];
  [ first [ apply lift_thrown in H;
            first [ now apply getProp_thrown in H
                  | now apply getPropOpt_thrown in H ]
          | now apply (makeRequest_thrown _ _ _ _ _ _ _ eq_refl) in H ]
  | ].

Lemma getAbove_thrown c params w e :
  fst (getAbove c params w) = Throw e -> thrown_by_call e.
Proof.
  unfold getAbove. intros H. do 2 thrown_step H. discriminate.
Qed.

(** Every error of a call is one of: invalid credential, upstream error,
    network error, a [TypeError] on a malformed body, or an error of the HTTP
    library passed through. *)
Lemma invoke_thrown c q w e :
  fst (invoke c q w) = Throw e -> thrown_by_call e.
Proof.
  destruct q; simpl; intros H;
    apply bind_thrown in H as [H | [? [? H]]]; try discriminate.
  - unfold getTLE in H. do 6 thrown_step H. discriminate.
  - unfold getPositions in H. do 2 thrown_step H. discriminate.
  - unfold getVisualPasses in H. do 2 thrown_step H. discriminate.
  - unfold getRadioPasses in H. do 2 thrown_step H. discriminate.
  - now apply getAbove_thrown in H.
  - unfold searchSatellites in H.
    apply bind_thrown in H as [H | [sats [w' H]]];
      [ now apply getAbove_thrown in H | ].
    destruct (truthy (VStr searchQuery)); [ | discriminate ].
    apply lift_thrown in H. now apply call_filter_thrown in H.
Qed.

(** C8: without a credential, or with the empty one, construction throws
    the configuration error and the log is untouched; with a non-empty
    credential construction returns the client, and no later call on that
    client ends in the configuration error. *)
Theorem credential_is_checked_at_construction key w :
  key <> "" ->
  constructor None w = (Throw ConfigurationError, w)
  /\ constructor (Some "") w = (Throw ConfigurationError, w)
  /\ constructor (Some key) w = (Ok (init key), w)
  /\ (forall q w1 e,
        fst (invoke (init key) q w1) = Throw e ->
        is_ConfigurationError e = false).
Proof.
  intros Hkey. repeat split.
  - unfold constructor. simpl.
    apply String.eqb_neq in Hkey. now rewrite Hkey.
  - intros q w1 e H. apply invoke_thrown in H. destruct H; reflexivity.
Qed.

Lemma credential_is_checked_at_construction_witness :
  constructor (Some "KEY") (fresh no_above_field)
  = (Ok (init "KEY"), fresh no_above_field).
Proof.
  apply (credential_is_checked_at_construction "KEY" (fresh no_above_field)).
  discriminate.
Defined.

(** ** getTLE *)

Lemma getTLE_satid c noradId w r w' :
  getTLE c noradId w = (Ok r, w') -> satid r = noradId.
Proof.
  unfold getTLE, bind, lift, ret. intros H.
  destruct (makeRequest c (getTLE_endpoint noradId) [] 0 w) as [[response | e] w1];
    [ | discriminate ].
  destruct (getProp response "info") as [info | e]; [ | discriminate ].
  destruct (getPropOpt info "satname") as [name | e]; [ | discriminate ].
  destruct (getPropOpt info "transactionscount") as [count | e];
    [ | discriminate ].
  destruct (getProp response "tle") as [lines | e]; [ | discriminate ].
  now injection H as <- _.
Qed.

(** C10: for an envelope whose [info] has [satname] equal to the empty
    string, or lacks it, the record carries the placeholder name built from
    the caller's id; with [transactionscount] equal to 0, or absent, it
    carries 0: the record is the same in the two cases.  The [satid] of every
    record that [getTLE] returns is the caller's id. *)
Theorem getTLE_treats_falsy_fields_as_absent c noradId w fields info w' :
  makeRequest c (getTLE_endpoint noradId) [] 0 w = (Ok (VObj fields), w') ->
  lookup "info" fields = Some (VObj info) ->
  exists r,
    getTLE c noradId w = (Ok r, w')
    /\ satid r = noradId
    /\ (lookup "satname" info = None
        \/ lookup "satname" info = Some (VStr "") ->
        satname r = VStr ("Satellite " ++ num noradId))
    /\ (lookup "transactionscount" info = None
        \/ lookup "transactionscount" info = Some (VNum 0) ->
        transactionscount r = VNum 0)
    /\ tle r = match lookup "tle" fields with
               | Some lines => lines
               | None => VUndefined
               end
    /\ (forall c0 w0 r0 w1,
          getTLE c0 noradId w0 = (Ok r0, w1) -> satid r0 = noradId).
Proof.
  intros Hreq Hinfo.
  unfold getTLE, bind, lift, ret. rewrite Hreq.
  cbn [getProp]. rewrite Hinfo. cbn [getPropOpt getProp].
  destruct (lookup "satname" info) as [name | ] eqn:Hname;
    destruct (lookup "transactionscount" info) as [count | ] eqn:Hcount;
    destruct (lookup "tle" fields) as [lines | ] eqn:Htle;
    (eexists; split; [ reflexivity | ]; cbn [satid satname transactionscount tle];
     refine (conj eq_refl (conj _ (conj _ (conj eq_refl _))));
     [ intros [H | H]; try discriminate; try (injection H as ->); reflexivity
     | intros [H | H]; try discriminate; try (injection H as ->); reflexivity
     | intros c0 w0 r0 w1; apply getTLE_satid ]).
Qed.

Lemma getTLE_treats_falsy_fields_as_absent_witness :
  getTLE (init "KEY") 25544 (fresh tle_with_empty_name)
  = (Ok {| satid := 25544;
           satname := VStr "Satellite 25544";
           transactionscount := VNum 0;
           tle := VStr "1 25544U" |},
     {| upstream := tle_with_empty_name;
        log := [Get "/tle//25544/&apiKey=KEY"] |}).
Proof.
  destruct (getTLE_treats_falsy_fields_as_absent (init "KEY") 25544
              (fresh tle_with_empty_name)
              [("info", VObj [("satid", VNum 25544); ("satname", VStr "");
                              ("transactionscount", VNum 0)]);
               ("tle", VStr "1 25544U")]
              [("satid", VNum 25544); ("satname", VStr "");
               ("transactionscount", VNum 0)]
              {| upstream := tle_with_empty_name;
                 log := [Get "/tle//25544/&apiKey=KEY"] |}
              eq_refl eq_refl)
    as [r [Hcall [Hid [Hname [Hcount [Htle _]]]]]].
  rewrite Hcall. destruct r as [i n t l]; simpl in *.
  rewrite Hid, (Hname (or_intror eq_refl)), (Hcount (or_intror eq_refl)), Htle.
  reflexivity.
Defined.

(** ** searchSatellites *)







(** * Further properties of the access layer *)

(** ** The retry loop *)

Lemma is_429_rejected r : is_429 (Responds r) = true ->
  status r = 429%Z /\ validateStatus (status r) = false.
Proof.
  simpl. intros H. apply Z.eqb_eq in H. split; [ exact H | now rewrite H ].
Qed.

Lemma schedule_snoc url delay first k :
  (Get url :: Sleep (delay * 2 ^ Z.of_nat first)
     :: schedule url delay (S first) k)
  = schedule url delay first (S k).
Proof. reflexivity. Qed.

(** The retry loop unrolled along the leading 429 answers. *)
Lemma retry_loop_unrolled c endpoint params retryCount w :
  makeRequest c endpoint params retryCount w =
  (settle
     (upstream w
        (length (requests w)
         + leading_429 (upstream w) (endpoint ++ "/&apiKey=" ++ apiKey c)
             (length (requests w)) (maxRetries c - retryCount))
        (endpoint ++ "/&apiKey=" ++ apiKey c)),
   {| upstream := upstream w;
      log := (log w ++
              schedule (endpoint ++ "/&apiKey=" ++ apiKey c) (retryDelay c)
                retryCount
                (leading_429 (upstream w) (endpoint ++ "/&apiKey=" ++ apiKey c)
                   (length (requests w)) (maxRetries c - retryCount)))%list |}).
Proof.
  remember (maxRetries c - retryCount) as budget eqn:Hb.
  revert retryCount w Hb.
  induction budget as [| budget IH]; intros retryCount w Hb.
  - cbn [leading_429 schedule]. rewrite Nat.add_0_r, makeRequest_eq.
    unfold axios_get, settle.
    assert (Hlt : (retryCount <? maxRetries c)%nat = false)
      by (apply Nat.ltb_ge; lia).
    destruct (upstream w _ _) as [r | | message]; try reflexivity.
    destruct (validateStatus (status r)); [ reflexivity | ].
    now rewrite Hlt, andb_false_r.
  - cbn [leading_429].
    destruct (is_429 (upstream w (length (requests w))
                        (endpoint ++ "/&apiKey=" ++ apiKey c))) eqn:H429.
    + destruct (upstream w (length (requests w))
                  (endpoint ++ "/&apiKey=" ++ apiKey c)) as [r | | message] eqn:Hup;
        try discriminate.
      apply is_429_rejected in H429 as [Hst _].
      rewrite (makeRequest_retry c endpoint params retryCount w r Hup Hst)
        by lia.
      remember (sleep (retryDelay c * 2 ^ Z.of_nat retryCount)
                  (record (Get (endpoint ++ "/&apiKey=" ++ apiKey c)) w))
        as w1 eqn:Hw1.
      assert (Hu : upstream w1 = upstream w) by now subst w1.
      assert (Hl : log w1
                   = (log w ++ [Get (endpoint ++ "/&apiKey=" ++ apiKey c);
                                Sleep (retryDelay c * 2 ^ Z.of_nat retryCount)])%list).
      { subst w1. unfold sleep, record; cbn [log]. now rewrite <- app_assoc. }
      assert (Hr : length (requests w1) = S (length (requests w))).
      { subst w1. rewrite requests_sleep, requests_record_get, length_app.
        simpl. lia. }
      rewrite (IH (retryCount + 1) w1) by lia.
      rewrite Hu, Hl, Hr.
      replace (retryCount + 1) with (S retryCount) by lia.
      replace (maxRetries c - S retryCount) with budget by lia.
      rewrite Nat.add_succ_r, <- Nat.add_succ_l.
      f_equal. f_equal. cbn [schedule]. now rewrite <- app_assoc.
    + cbn [schedule]. rewrite Nat.add_0_r, makeRequest_eq.
      unfold axios_get, settle.
      destruct (upstream w _ _) as [r | | message]; try reflexivity.
      destruct (validateStatus (status r)); [ reflexivity | ].
      simpl in H429. unfold status_is. now rewrite H429.
Qed.

Lemma leading_429_bound up url i budget : leading_429 up url i budget <= budget.
Proof.
  revert i. induction budget as [| budget IH]; intros i; simpl; [ lia | ].
  destruct (is_429 (up i url)); [ | lia ]. specialize (IH (S i)). lia.
Qed.

Lemma leading_429_none up url i budget :
  is_429 (up i url) = false -> leading_429 up url i budget = 0.
Proof. intros H. destruct budget; simpl; [ | rewrite H ]; reflexivity. Qed.

(** X1. The retry loop in closed form: with [k] the number of leading 429
    answers, at most the retries left, a call sends [k + 1] requests with the
    doubling sleeps between them and ends in what the answer to the last of
    them settles to. *)
Theorem makeRequest_closed_form c endpoint params retryCount w :
  exists k,
    k = leading_429 (upstream w) (endpoint ++ "/&apiKey=" ++ apiKey c)
          (length (requests w)) (maxRetries c - retryCount)
    /\ k <= maxRetries c - retryCount
    /\ makeRequest c endpoint params retryCount w =
       (settle (upstream w (length (requests w) + k)
                  (endpoint ++ "/&apiKey=" ++ apiKey c)),
        {| upstream := upstream w;
           log := (log w ++
                   schedule (endpoint ++ "/&apiKey=" ++ apiKey c)
                     (retryDelay c) retryCount k)%list |}).
Proof.
  eexists. split; [ reflexivity | ]. split.
  - apply leading_429_bound.
  - apply retry_loop_unrolled.
Qed.

(** X2. Only a 429 answer is retried: when the answer to the first request
    is anything else, that request is the only one, nothing is slept, and the
    call ends in what the answer settles to, whatever the retries left. *)
Theorem only_429_is_retried c endpoint params retryCount w :
  is_429 (upstream w (length (requests w))
            (endpoint ++ "/&apiKey=" ++ apiKey c)) = false ->
  makeRequest c endpoint params retryCount w =
  (settle (upstream w (length (requests w))
             (endpoint ++ "/&apiKey=" ++ apiKey c)),
   {| upstream := upstream w;
      log := (log w ++ [Get (endpoint ++ "/&apiKey=" ++ apiKey c)])%list |}).
Proof.
  intros H. rewrite retry_loop_unrolled.
  rewrite (leading_429_none _ _ _ _ H), Nat.add_0_r. reflexivity.
Qed.

Lemma only_429_is_retried_witness :
  makeRequest (init "KEY") "/tle//25544" [] 0
    (fresh (fun _ _ => Responds (mkResponse 503 (VStr "Service Unavailable"))))
  = (Throw (McpError InternalError
              "N2YO API error: 503 - Service Unavailable"),
     {| upstream :=
          fun _ _ => Responds (mkResponse 503 (VStr "Service Unavailable"));
        log := [Get "/tle//25544/&apiKey=KEY"] |}).
Proof.
  exact (only_429_is_retried (init "KEY") "/tle//25544" [] 0
           (fresh (fun _ _ =>
                     Responds (mkResponse 503 (VStr "Service Unavailable"))))
           eq_refl).
Defined.

(** X3. When no response is received (connection failure, timeout), the
    call fails with the network error after that single request: a network
    failure is not retried. *)
Theorem no_response_is_a_network_error c endpoint params retryCount w :
  upstream w (length (requests w)) (endpoint ++ "/&apiKey=" ++ apiKey c)
    = NoResponse ->
  makeRequest c endpoint params retryCount w =
  (Throw NetworkError,
   {| upstream := upstream w;
      log := (log w ++ [Get (endpoint ++ "/&apiKey=" ++ apiKey c)])%list |}).
Proof.
  intros H. rewrite retry_loop_unrolled.
  rewrite leading_429_none by now rewrite H.
  rewrite Nat.add_0_r, H. reflexivity.
Qed.

Lemma no_response_is_a_network_error_witness :
  makeRequest (init "KEY") "/tle//25544" [] 0 (fresh (fun _ _ => NoResponse))
  = (Throw (McpError InternalError
              "Network error while connecting to N2YO API"),
     {| upstream := fun _ _ => NoResponse;
        log := [Get "/tle//25544/&apiKey=KEY"] |}).
Proof.
  exact (no_response_is_a_network_error (init "KEY") "/tle//25544" [] 0
           (fresh (fun _ _ => NoResponse)) eq_refl).
Defined.



Lemma slept_schedule url k :
  k <= 3 ->
  slept (schedule url 1000 0 k) = (1000 * (2 ^ Z.of_nat k - 1))%Z.
Proof.
  intros Hk.
  destruct k as [| [| [| [| k]]]]; try reflexivity. lia.
Qed.

(** X5. The events that any call of a constructed client adds to the log
    follow the back-off schedule: a request, then at most three times a sleep
    and a request, the sleeps being 1000, 2000 and 4000 ms.  A call never
    sleeps more than 7000 ms in all. *)
Theorem call_follows_backoff_schedule key q w :
  exists k,
    k <= 3
    /\ log (snd (invoke (init key) q w))
       = (log w ++ schedule (endpoint_of q ++ "/&apiKey=" ++ key) 1000 0 k)%list
    /\ slept (schedule (endpoint_of q ++ "/&apiKey=" ++ key) 1000 0 k)
       = (1000 * (2 ^ Z.of_nat k - 1))%Z
    /\ (slept (schedule (endpoint_of q ++ "/&apiKey=" ++ key) 1000 0 k)
        <= 7000)%Z.
Proof.
  rewrite invoke_world, retry_loop_unrolled. cbn [snd log apiKey init].
  set (k := leading_429 _ _ _ _).
  assert (Hk : k <= 3) by apply leading_429_bound.
  exists k. refine (conj Hk (conj eq_refl (conj (slept_schedule _ _ Hk) _))).
  rewrite (slept_schedule _ _ Hk).
  destruct k as [| [| [| [| k]]]]; simpl; lia.
Qed.

(** ** Adapters: errors and unwrapping *)

(** X6. An error of the transport core passes through every public call
    unchanged, and so does the world it leaves. *)
Theorem transport_errors_propagate_unchanged c q w e w' :
  makeRequest c (endpoint_of q) [] 0 w = (Throw e, w') ->
  invoke c q w = (Throw e, w').
Proof.
  intros H.
  destruct q; cbn [invoke endpoint_of] in *;
    unfold searchSatellites, getTLE, getPositions, getVisualPasses,
      getRadioPasses, getAbove, bind;
    rewrite H; reflexivity.
Qed.

Lemma transport_errors_propagate_unchanged_witness :
  invoke (init "KEY") (CallSearch "iss" None)
    (fresh (fun _ _ => Responds (mkResponse 401 (VStr "Unauthorized"))))
  = (Throw (McpError InvalidRequest "Invalid N2YO API key"),
     {| upstream := fun _ _ => Responds (mkResponse 401 (VStr "Unauthorized"));
        log := [Get "/above//0/0/0/90/0/&apiKey=KEY"] |}).
Proof.
  exact (transport_errors_propagate_unchanged (init "KEY")
           (CallSearch "iss" None)
           (fresh (fun _ _ => Responds (mkResponse 401 (VStr "Unauthorized"))))
           _ _ eq_refl).
Defined.

(** X7. A list-returning adapter hands back the array of the envelope as it
    is: same elements, same order, nothing filtered. *)
Theorem list_is_returned_verbatim c q field fields elts w w' :
  list_field q = Some field ->
  makeRequest c (endpoint_of q) [] 0 w = (Ok (VObj fields), w') ->
  lookup field fields = Some (VArr elts) ->
  invoke c q w = (Ok (Sequence (VArr elts)), w').
Proof.
  intros Hq Hreq Hfield.
  destruct q; simpl in Hq; try discriminate; injection Hq as <-;
    simpl in Hreq; simpl;
    unfold getPositions, getVisualPasses, getRadioPasses, getAbove, bind, lift;
    rewrite Hreq; simpl; rewrite Hfield; reflexivity.
Qed.

Lemma list_is_returned_verbatim_witness :
  invoke (init "KEY") (CallAbove (AboveParams.mk 0 0 None None None))
    (fresh above_equator)
  = (Ok (Sequence (VArr iss_and_noaa)),
     {| upstream := above_equator;
        log := [Get "/above//0/0/0/90/0/&apiKey=KEY"] |}).
Proof.
  exact (list_is_returned_verbatim (init "KEY")
           (CallAbove (AboveParams.mk 0 0 None None None)) "above"
           [("info", VObj [("satcount", VNum 2)]); ("above", VArr iss_and_noaa)]
           iss_and_noaa (fresh above_equator) _ eq_refl eq_refl eq_refl).
Defined.



(** ** searchSatellites: beyond well-formed records *)

Lemma filter_elts_subsequence p elts kept :
  filter_elts p elts = Ok kept -> subsequence kept elts.
Proof.
  revert kept. induction elts as [| x rest IH]; simpl; intros kept H.
  - injection H as <-. constructor.
  - destruct (p x) as [keep | e]; [ | discriminate ]. simpl in H.
    destruct (filter_elts p rest) as [kept' | e]; [ | discriminate ].
    simpl in H. injection H as <-.
    destruct keep; constructor; apply IH; reflexivity.
Qed.

Lemma subsequence_refl {A} (l : list A) : subsequence l l.
Proof. induction l; constructor; assumption. Qed.

(** X9. Whatever the records look like, a search that returns hands back
    records of the [getAbove] list only, in their order: it selects, and
    neither adds nor reorders. *)
Theorem search_result_is_a_subsequence
    c searchQuery category_id w sats w' v w'' :
  getAbove c (searchSatellites_params category_id) w = (Ok (VArr sats), w') ->
  searchSatellites c searchQuery category_id w = (Ok v, w'') ->
  w'' = w' /\ exists kept, v = VArr kept /\ subsequence kept sats.
Proof.
  intros Hcall. unfold searchSatellites, bind. rewrite Hcall.
  destruct (truthy (VStr searchQuery)).
  - unfold lift, call_filter.
    destruct (filter_elts _ sats) as [kept | e] eqn:Hf; simpl;
      [ | discriminate ].
    intros [= <- <-]. split; [ reflexivity | ].
    exists kept. split; [ reflexivity | ].
    now apply filter_elts_subsequence in Hf.
  - intros [= <- <-]. split; [ reflexivity | ].
    exists sats. split; [ reflexivity | apply subsequence_refl ].
Qed.

Lemma search_result_is_a_subsequence_witness :
  exists kept,
    VArr [ VObj [("satid", VNum 33591); ("satname", VStr "NOAA 19");
                 ("intDesignator", VStr "2009-005A")] ] = VArr kept
    /\ subsequence kept iss_and_noaa.
Proof.
  exact (proj2 (search_result_is_a_subsequence (init "KEY") "2009" None
                  (fresh above_equator) iss_and_noaa _ _ _
                  eq_refl eq_refl)).
Defined.

Lemma toLowerCase_empty s : toLowerCase s = "" -> s = "".
Proof. destruct s; [ reflexivity | discriminate ]. Qed.

(** X10. The query is matched without regard to case: two queries with the
    same lower-case form give the same result, the same error and the same
    requests. *)
Theorem search_ignores_case_of_query c query1 query2 category_id w :
  toLowerCase query1 = toLowerCase query2 ->
  searchSatellites c query1 category_id w
  = searchSatellites c query2 category_id w.
Proof.
  intros H. unfold searchSatellites.
  assert (Ht : truthy (VStr query1) = truthy (VStr query2)).
  { cbn [truthy]. f_equal.
    destruct query1, query2; try reflexivity; discriminate. }
  rewrite Ht, H. reflexivity.
Qed.

Lemma search_ignores_case_of_query_witness :
  searchSatellites (init "KEY") "Noaa" None (fresh above_equator)
  = searchSatellites (init "KEY") "NOAA" None (fresh above_equator).
Proof.
  exact (search_ignores_case_of_query (init "KEY") "Noaa" "NOAA" None
           (fresh above_equator) eq_refl).
Defined.

Lemma matches_type_error lowerQuery sat e :
  matches lowerQuery sat = Throw e -> e = TypeError.
Proof.
  intros H. apply matches_thrown in H as Hth.
  unfold matches in H.
  destruct sat; simpl in H; try (now injection H as <-).
  destruct (lookup "satname" fields) as [[]|]; simpl in H;
    try (now injection H as <-).
  destruct (includes (toLowerCase s) lowerQuery); [ discriminate | ].
  destruct (lookup "intDesignator" fields) as [[]|]; simpl in H;
    try (now injection H as <-); discriminate.
Qed.

Lemma matches_nameless lowerQuery sat :
  field_string "satname" sat = None -> matches lowerQuery sat = Throw TypeError.
Proof.
  unfold field_string, matches.
  destruct sat; simpl; try reflexivity.
  destruct (lookup "satname" fields) as [[]|]; simpl;
    try reflexivity; discriminate.
Qed.

Lemma filter_elts_nameless lowerQuery sats :
  (exists sat, In sat sats /\ field_string "satname" sat = None) ->
  filter_elts (matches lowerQuery) sats = Throw TypeError.
Proof.
  induction sats as [| x rest IH]; intros [sat [Hin Hname]];
    [ destruct Hin | ].
  cbn [filter_elts].
  destruct (matches lowerQuery x) as [keep | e] eqn:Hx.
  - destruct Hin as [-> | Hin].
    + rewrite (matches_nameless _ _ Hname) in Hx. discriminate.
    + cbn [rbind]. rewrite IH by (exists sat; split; assumption). reflexivity.
  - apply matches_type_error in Hx as ->. reflexivity.
Qed.

(** X11. With a query, one record without a string [satname] in the
    [getAbove] list makes the whole search throw a [TypeError]: no partial
    list is returned. *)
Theorem search_fails_on_a_nameless_record
    c searchQuery category_id w sats w' :
  searchQuery <> "" ->
  getAbove c (searchSatellites_params category_id) w = (Ok (VArr sats), w') ->
  (exists sat, In sat sats /\ field_string "satname" sat = None) ->
  searchSatellites c searchQuery category_id w = (Throw TypeError, w').
Proof.
  intros Hq Hcall Hbad. unfold searchSatellites, bind. rewrite Hcall.
  apply String.eqb_neq in Hq. cbn [truthy]. rewrite Hq. cbn [negb].
  unfold lift, call_filter.
  now rewrite (filter_elts_nameless _ _ Hbad).
Qed.

Lemma search_fails_on_a_nameless_record_witness :
  searchSatellites (init "KEY") "iss" None (fresh above_with_nameless)
  = (Throw TypeError,
     {| upstream := above_with_nameless;
        log := [Get "/above//0/0/0/90/0/&apiKey=KEY"] |}).
Proof.
  apply (search_fails_on_a_nameless_record (init "KEY") "iss" None
           (fresh above_with_nameless) iss_and_nameless).
  - discriminate.
  - reflexivity.
  - exists (VObj [("satid", VNum 33591); ("intDesignator", VStr "2009-005A")]).
    split; [ right; left; reflexivity | reflexivity ].
Defined.

(** ** Paths and parameters *)











(** * Properties of the tool layer *)

Lemma rethrow_as_snd {A} message_of prefix (m : M A) w :
  snd (rethrow_as message_of prefix m w) = snd (m w).
Proof.
  unfold rethrow_as. destruct (m w) as [[a | []] w']; reflexivity.
Qed.

Lemma rethrow_as_thrown {A} message_of prefix (m : M A) w e :
  fst (rethrow_as message_of prefix m w) = Throw e ->
  exists code message, e = McpError code message.
Proof.
  unfold rethrow_as. destruct (m w) as [[a | []] w']; simpl;
    intros [= <-]; eauto.
Qed.

(** X13. A tool never lets another error than an [McpError] out: whatever
    goes wrong below it (a malformed body, an error of the HTTP library) is
    reported as an [McpError]. *)
Theorem tools_throw_only_McpError message_of now c t w e :
  fst (run_tool message_of now c t w) = Throw e ->
  exists code message, e = McpError code message.
Proof.
  destruct t; cbn [run_tool]; apply rethrow_as_thrown.
Qed.

Lemma tools_throw_only_McpError_witness :
  exists code message,
    McpError InternalError
      "Error retrieving satellite TLE data: Cannot read properties of null"
    = McpError code message.
Proof.
  exact (tools_throw_only_McpError engine_message "2026-11-03T00:00:00.000Z"
           (init "KEY") (ToolTLE 25544) (fresh null_body) _ eq_refl).
Defined.



Lemma out_of_range x lo hi :
  ((x <? lo) || (x >? hi))%Z = negb ((lo <=? x) && (x <=? hi))%Z.
Proof.
  rewrite Z.gtb_ltb.
  destruct (Z.ltb_spec x lo), (Z.ltb_spec hi x), (Z.leb_spec lo x),
    (Z.leb_spec x hi); simpl; try reflexivity; lia.
Qed.



(** ** The TLE tool *)

Lemma split_crlf_cons a rest :
  split_crlf (String a rest)
  = match rest with
    | String b rest' =>
        if ((a =? "013") && (b =? "010"))%char
        then EmptyString :: split_crlf rest'
        else match split_crlf rest with
             | [] => [String a EmptyString]
             | part :: parts => String a part :: parts
             end
    | EmptyString =>
        match split_crlf rest with
        | [] => [String a EmptyString]
        | part :: parts => String a part :: parts
        end
    end.
Proof. destruct rest; reflexivity. Qed.

Lemma no_crlf_cons a l :
  includes (String a l) CRLF = false ->
  includes l CRLF = false
  /\ match l with
     | String b _ => ((a =? "013") && (b =? "010"))%char = false
     | EmptyString => True
     end.
Proof.
  cbn [includes]. intros H. apply orb_false_iff in H as [Hp Hl].
  split; [ exact Hl | ].
  destruct l as [| b l]; [ exact I | ].
  unfold CRLF in Hp. cbn [prefix] in Hp.
  destruct (Ascii.eqb_spec a "013") as [-> | Ha]; [ | reflexivity ].
  destruct (Ascii.eqb_spec b "010") as [-> | Hb]; [ | reflexivity ].
  simpl in Hp. now destruct l.
Qed.

(** A line without CRLF, then CRLF: the split starts with that line. *)
Lemma split_crlf_line l rest :
  includes l CRLF = false ->
  split_crlf (l ++ CRLF ++ rest) = l :: split_crlf rest.
Proof.
  induction l as [| a l IH]; intros H; [ reflexivity | ].
  apply no_crlf_cons in H as [Hl Hab].
  change (String a l ++ CRLF ++ rest) with (String a (l ++ CRLF ++ rest)).
  rewrite split_crlf_cons, (IH Hl).
  destruct l as [| b l].
  - cbn [append CRLF]. unfold CRLF. cbn [append].
    replace ((a =? "013")%char && ("013" =? "010")%char) with false
      by now rewrite andb_false_r.
    reflexivity.
  - cbn [append]. now rewrite Hab.
Qed.

Lemma split_crlf_last l : includes l CRLF = false -> split_crlf l = [l].
Proof.
  induction l as [| a l IH]; intros H; [ reflexivity | ].
  apply no_crlf_cons in H as [Hl Hab].
  rewrite split_crlf_cons, (IH Hl).
  destruct l as [| b l]; [ reflexivity | now rewrite Hab ].
Qed.

Lemma line_or_empty_nth lines i l :
  nth_error lines i = Some l -> line_or_empty lines i = VStr l.
Proof.
  unfold line_or_empty, js_or. intros ->. cbn [truthy].
  destruct (String.eqb_spec l "") as [-> | _]; reflexivity.
Qed.

(** X15. For a two-line element set, two lines joined by CRLF, the TLE tool
    answers with the first line as [line1], the second as [line2] and an
    empty [line3], under the caller's id and the name the client gives. *)
Theorem tle_tool_splits_the_two_lines
    message_of now c norad_id w r w' line1 line2 :
  (0 < norad_id)%Z ->
  getTLE c norad_id w = (Ok r, w') ->
  tle r = VStr (line1 ++ CRLF ++ line2) ->
  includes line1 CRLF = false ->
  includes line2 CRLF = false ->
  getSatelliteTLETool message_of now c norad_id w
  = (Ok (VObj [ ("satellite_id", VNum norad_id);
                ("satellite_name", satname r);
                ("tle", VObj [ ("line1", VStr line1);
                               ("line2", VStr line2);
                               ("line3", VStr "") ]);
                ("updated", VStr now) ]), w').
Proof.
  intros Hid Hcall Htle H1 H2.
  unfold getSatelliteTLETool, Number_isInteger, rethrow_as, bind.
  cbn [negb orb].
  replace (norad_id <=? 0)%Z with false by (symmetry; apply Z.leb_gt; lia).
  rewrite Hcall, Htle.
  replace (truthy (VStr (line1 ++ CRLF ++ line2))) with true
    by (destruct line1; reflexivity).
  cbn [negb]. rewrite (split_crlf_line _ _ H1), (split_crlf_last _ H2).
  rewrite (line_or_empty_nth _ 0 line1), (line_or_empty_nth _ 1 line2)
    by reflexivity.
  reflexivity.
Qed.

Lemma tle_tool_splits_the_two_lines_witness :
  getSatelliteTLETool engine_message "2026-11-03T00:00:00.000Z" (init "KEY")
    25544 (fresh two_line_tle)
  = (Ok (VObj [ ("satellite_id", VNum 25544);
                ("satellite_name", VStr "ISS (ZARYA)");
                ("tle", VObj [ ("line1", VStr "1 25544U 98067A");
                               ("line2", VStr "2 25544  51.6");
                               ("line3", VStr "") ]);
                ("updated", VStr "2026-11-03T00:00:00.000Z") ]),
     {| upstream := two_line_tle; log := [Get "/tle//25544/&apiKey=KEY"] |}).
Proof.
  exact (tle_tool_splits_the_two_lines engine_message
           "2026-11-03T00:00:00.000Z" (init "KEY") 25544 (fresh two_line_tle)
           {| satid := 25544; satname := VStr "ISS (ZARYA)";
              transactionscount := VNum 0;
              tle := VStr ("1 25544U 98067A" ++ CRLF ++ "2 25544  51.6") |}
           _ "1 25544U 98067A" "2 25544  51.6"
           eq_refl eq_refl eq_refl eq_refl eq_refl).
Defined.

(** ** Listing tools *)

Lemma map_elts_length f elts ys :
  map_elts f elts = Ok ys -> length ys = length elts.
Proof.
  revert ys. induction elts as [| x rest IH]; simpl; intros ys H.
  - now injection H as <-.
  - destruct (f x) as [y | e]; [ | discriminate ]. simpl in H.
    destruct (map_elts f rest) as [ys' | e]; [ | discriminate ].
    simpl in H. injection H as <-. simpl. now rewrite (IH ys').
Qed.

(** The end that the listing tools share: an empty answer, or the formatted
    records with their count. *)
Lemma listing_inv satellites (empty : jsval) (full : list jsval -> jsval)
    w payload w' :
  (none <- lift (no_results satellites) ;;
   if none then ret empty
   else formatted <- lift (call_map satellites formatSatelliteData) ;;
        ret (full formatted)) w = (Ok payload, w') ->
  (no_results satellites = Ok true /\ payload = empty)
  \/ (exists formatted,
        no_results satellites = Ok false
        /\ call_map satellites formatSatelliteData = Ok formatted
        /\ payload = full formatted).
Proof.
  unfold bind, lift, ret.
  destruct (no_results satellites) as [[|] | e]; [ | | discriminate ].
  - intros [= <- _]. left. split; reflexivity.
  - destruct (call_map satellites formatSatelliteData) as [formatted | e];
      [ | discriminate ].
    intros [= <- _]. right. exists formatted. repeat split.
Qed.

Lemma rethrow_as_ok {A} message_of prefix (m : M A) w a w' :
  rethrow_as message_of prefix m w = (Ok a, w') -> m w = (Ok a, w').
Proof.
  unfold rethrow_as. destruct (m w) as [[a0 | []] w0]; try discriminate.
  now intros [= -> ->].
Qed.

Lemma bind_ok {A B} (m : M A) (k : A -> M B) w b w' :
  bind m k w = (Ok b, w') ->
  exists a w1, m w = (Ok a, w1) /\ k a w1 = (Ok b, w').
Proof.
  unfold bind. destruct (m w) as [[a | e] w1]; [ | discriminate ].
  intros H. exists a, w1. split; [ reflexivity | exact H ].
Qed.

Lemma no_results_array elts :
  no_results (VArr elts) = Ok (Nat.eqb (length elts) 0).
Proof. destruct elts; reflexivity. Qed.

(** What an answer of the above tool looks like. *)
Lemma above_tool_inv message_of now c args w payload w' :
  getSatellitesAboveTool message_of now c args w = (Ok payload, w') ->
  exists satellites w1,
    request_of (ToolAbove args)
    = Some (CallAbove
              (AboveParams.mk (AboveArgs.observer_lat args)
                 (AboveArgs.observer_lng args) (AboveArgs.observer_alt args)
                 (AboveArgs.search_radius args) (AboveArgs.category_id args)))
    /\ getAbove c
         (AboveParams.mk (AboveArgs.observer_lat args)
            (AboveArgs.observer_lng args) (AboveArgs.observer_alt args)
            (AboveArgs.search_radius args) (AboveArgs.category_id args)) w
       = (Ok satellites, w1)
    /\ ((no_results satellites = Ok true
         /\ payload
            = above_payload args
                [ ("satellites", VArr []); ("count", VNum 0);
                  ("message",
                   VStr "No satellites found above the specified location.") ])
        \/ exists formatted,
             no_results satellites = Ok false
             /\ call_map satellites formatSatelliteData = Ok formatted
             /\ payload
                = above_payload args
                    [ ("satellites", VArr formatted);
                      ("count", VNum (Z.of_nat (length formatted)));
                      ("timestamp", VStr now) ]).
Proof.
  intros H. apply rethrow_as_ok in H. revert H.
  unfold request_of, within, Number_isInteger.
  destruct args as [lat lng alt radius category]; cbn [AboveArgs.observer_lat
    AboveArgs.observer_lng AboveArgs.observer_alt AboveArgs.search_radius
    AboveArgs.category_id negb orb].
  rewrite !out_of_range.
  destruct ((-90 <=? lat) && (lat <=? 90))%Z; cbn [negb andb];
    [ | discriminate ].
  destruct ((-180 <=? lng) && (lng <=? 180))%Z; cbn [negb andb];
    [ | discriminate ].
  destruct radius as [r |];
    [ rewrite (out_of_range r);
      destruct ((0 <=? r) && (r <=? 90))%Z; cbn [negb andb]; [ | discriminate ]
    | ];
    (destruct category as [k |];
     [ rewrite (out_of_range k);
       destruct ((0 <=? k) && (k <=? 30))%Z; cbn [negb andb]; [ | discriminate ]
     | ]);
    cbn [negb andb]; intros H;
    apply bind_ok in H as [satellites [w1 [Hcall H]]];
    apply listing_inv in H; exists satellites, w1;
    (split; [ reflexivity | split; [ exact Hcall | exact H ] ]).
Qed.




Lemma search_by_name_inv message_of now c query w payload w' :
  searchSatellitesByNameTool message_of now c query w = (Ok payload, w') ->
  exists satellites w1,
    searchSatellites c query None w = (Ok satellites, w1)
    /\ ((no_results satellites = Ok true
         /\ payload
            = VObj [ ("query", VStr query); ("category", VNull);
                     ("satellites", VArr []); ("count", VNum 0);
                     ("message",
                      VStr "No satellites found matching the search name.") ])
        \/ exists formatted,
             no_results satellites = Ok false
             /\ call_map satellites formatSatelliteData = Ok formatted
             /\ payload
                = VObj [ ("query", VStr query); ("category", VNull);
                         ("satellites", VArr formatted);
                         ("count", VNum (Z.of_nat (length formatted)));
                         ("timestamp", VStr now) ]).
Proof.
  intros H. apply rethrow_as_ok in H.
  apply bind_ok in H as [satellites [w1 [Hcall H]]].
  apply listing_inv in H. exists satellites, w1. split; assumption.
Qed.

Lemma search_by_category_inv message_of now c category_id w payload w' :
  searchSatellitesByCategoryTool message_of now c category_id w
  = (Ok payload, w') ->
  exists id satellites w1,
    category_id = Some id
    /\ ((0 <=? id) && (id <=? 30))%Z = true
    /\ searchSatellites c "" (Some id) w = (Ok satellites, w1)
    /\ ((no_results satellites = Ok true
         /\ payload
            = VObj [ ("query", VNull); ("category", category_label id);
                     ("satellites", VArr []); ("count", VNum 0);
                     ("message",
                      VStr ("No satellites found in category: "
                              ++ toString (category_label id) ++ ".")) ])
        \/ exists formatted,
             no_results satellites = Ok false
             /\ call_map satellites formatSatelliteData = Ok formatted
             /\ payload
                = VObj [ ("query", VNull); ("category", category_label id);
                         ("satellites", VArr formatted);
                         ("count", VNum (Z.of_nat (length formatted)));
                         ("timestamp", VStr now) ]).
Proof.
  intros H. apply rethrow_as_ok in H. revert H.
  destruct category_id as [id |]; [ | discriminate ].
  unfold Number_isInteger. cbn [negb orb]. rewrite out_of_range.
  destruct ((0 <=? id) && (id <=? 30))%Z eqn:Hid; cbn [negb];
    [ | discriminate ].
  intros H. apply bind_ok in H as [satellites [w1 [Hcall H]]].
  apply listing_inv in H. exists id, satellites, w1. repeat split; assumption.
Qed.

Lemma category_resource_inv message_of now c uri w payload w' :
  getSatellitesCategoryResource message_of now c uri w = (Ok payload, w') ->
  exists id satellites w1,
    match_number "satellites://category/" uri = Some id
    /\ ((0 <=? id) && (id <=? 30))%Z = true
    /\ getAbove c (AboveParams.mk 0 0 None (Some 90%Z) (Some id)) w
       = (Ok satellites, w1)
    /\ ((no_results satellites = Ok true
         /\ payload
            = VObj [ ("category_id", VNum id);
                     ("category_name", category_label id);
                     ("satellites", VArr []); ("count", VNum 0);
                     ("message",
                      VStr ("No satellites found in category: "
                              ++ toString
                                   (js_or (mapping_get id CATEGORY_MAPPING)
                                      (VNum id))));
                     ("timestamp", VStr now) ])
        \/ exists formatted,
             no_results satellites = Ok false
             /\ call_map satellites formatSatelliteData = Ok formatted
             /\ payload
                = VObj [ ("category_id", VNum id);
                         ("category_name", category_label id);
                         ("satellites", VArr formatted);
                         ("count", VNum (Z.of_nat (length formatted)));
                         ("timestamp", VStr now) ]).
Proof.
  intros H. apply rethrow_as_ok in H. revert H.
  destruct (match_number "satellites://category/" uri) as [id |];
    [ | discriminate ].
  unfold Number_isInteger. cbn [negb orb]. rewrite out_of_range.
  destruct ((0 <=? id) && (id <=? 30))%Z eqn:Hid; cbn [negb];
    [ | discriminate ].
  intros H. apply bind_ok in H as [satellites [w1 [Hcall H]]].
  apply listing_inv in H. exists id, satellites, w1. repeat split; assumption.
Qed.

Lemma call_map_array v f formatted :
  call_map v f = Ok formatted ->
  exists elts, v = VArr elts /\ length formatted = length elts.
Proof.
  destruct v; try discriminate. simpl. intros H.
  exists elts. split; [ reflexivity | now apply map_elts_length in H ].
Qed.

(** The fields that a listing answer carries, in terms of what the client
    returned. *)
Lemma listing_counts satellites (head : list (string * jsval)) tail_empty
    (tail_full : list (string * jsval)) payload now :
  (no_results satellites = Ok true
   /\ payload = VObj (head ++ ("satellites", VArr []) :: ("count", VNum 0)
                        :: tail_empty)%list)
  \/ (exists formatted,
        no_results satellites = Ok false
        /\ call_map satellites formatSatelliteData = Ok formatted
        /\ payload = VObj (head ++ ("satellites", VArr formatted)
                             :: ("count", VNum (Z.of_nat (length formatted)))
                             :: ("timestamp", VStr now) :: tail_full)%list) ->
  lookup "satellites" head = None -> lookup "count" head = None ->
  exists fields sats,
    payload = VObj fields
    /\ lookup "satellites" fields = Some (VArr sats)
    /\ lookup "count" fields = Some (VNum (Z.of_nat (length sats)))
    /\ forall elts, satellites = VArr elts -> length sats = length elts.
Proof.
  intros Hp Hs Hc. revert Hp.
  assert (Hl : forall k (l1 l2 : list (string * jsval)),
             lookup k l1 = None -> lookup k (l1 ++ l2) = lookup k l2).
  { intros k l1 l2. induction l1 as [| [k' v] l1 IH]; simpl; [ reflexivity | ].
    destruct (k' =? k); [ discriminate | exact IH ]. }
  intros [[Hnone ->] | [formatted [Hnone [Hmap ->]]]].
  - eexists. exists []. split; [ reflexivity | ].
    rewrite !Hl by assumption. repeat split.
    intros elts ->. rewrite no_results_array in Hnone.
    injection Hnone as Hnone. apply Nat.eqb_eq in Hnone. now rewrite Hnone.
  - eexists. exists formatted. split; [ reflexivity | ].
    rewrite !Hl by assumption. repeat split.
    intros elts ->. apply call_map_array in Hmap as [elts' [[= <-] Hlen]].
    exact Hlen.
Qed.

Lemma invoke_sequence c q w v w1 satellites w2 :
  invoke c q w = (Ok (Sequence v), w1) ->
  match q with
  | CallAbove params => getAbove c params w = (Ok satellites, w2)
  | CallSearch searchQuery category_id =>
      searchSatellites c searchQuery category_id w = (Ok satellites, w2)
  | _ => False
  end ->
  satellites = v.
Proof.
  destruct q; try contradiction; cbn [invoke]; unfold bind; intros H Hcall;
    rewrite Hcall in H; now injection H.
Qed.

(** X17. In every answer of a listing tool the [count] is the number of
    satellites it lists, and that is the number of records the client
    returned: formatting drops and adds none. *)
Theorem listing_count_matches_records message_of now c t w payload w' :
  run_tool message_of now c t w = (Ok payload, w') ->
  (forall norad_id, t <> ToolTLE norad_id) ->
  exists fields sats,
    payload = VObj fields
    /\ lookup "satellites" fields = Some (VArr sats)
    /\ lookup "count" fields = Some (VNum (Z.of_nat (length sats)))
    /\ forall q elts w1,
         request_of t = Some q ->
         invoke c q w = (Ok (Sequence (VArr elts)), w1) ->
         length sats = length elts.
Proof.
  intros H Hlist.
  destruct t as [norad_id | args | query | category_id | uri];
    cbn [run_tool] in H.
  - now elim (Hlist norad_id).
  - apply above_tool_inv in H as [satellites [w1 [Hq [Hcall Hp]]]].
    unfold above_payload in Hp.
    destruct (listing_counts satellites _ _ _ _ _ Hp eq_refl eq_refl)
      as [fields [sats [-> [Hs [Hc Hlen]]]]].
    exists fields, sats. repeat split; try assumption.
    intros q elts w2 Hq' Hinv. rewrite Hq in Hq'. injection Hq' as <-.
    apply Hlen. exact (invoke_sequence _ _ _ _ _ _ _ Hinv Hcall).
  - apply search_by_name_inv in H as [satellites [w1 [Hcall Hp]]].
    destruct (listing_counts satellites
                [("query", VStr query); ("category", VNull)] _ _ _ _
                Hp eq_refl eq_refl)
      as [fields [sats [-> [Hs [Hc Hlen]]]]].
    exists fields, sats. repeat split; try assumption.
    intros q elts w2 [= <-] Hinv.
    apply Hlen. exact (invoke_sequence _ _ _ _ _ _ _ Hinv Hcall).
  - apply search_by_category_inv in H
      as [id [satellites [w1 [-> [Hid [Hcall Hp]]]]]].
    destruct (listing_counts satellites
                [("query", VNull); ("category", category_label id)] _ _ _ _
                Hp eq_refl eq_refl)
      as [fields [sats [-> [Hs [Hc Hlen]]]]].
    exists fields, sats. repeat split; try assumption.
    intros q elts w2 Hq Hinv. cbn [request_of within] in Hq.
    rewrite Hid in Hq. injection Hq as <-.
    apply Hlen. exact (invoke_sequence _ _ _ _ _ _ _ Hinv Hcall).
  - apply category_resource_inv in H
      as [id [satellites [w1 [Hm [Hid [Hcall Hp]]]]]].
    destruct (listing_counts satellites
                [("category_id", VNum id);
                 ("category_name", category_label id)] _ _ _ _
                Hp eq_refl eq_refl)
      as [fields [sats [-> [Hs [Hc Hlen]]]]].
    exists fields, sats. repeat split; try assumption.
    intros q elts w2 Hq Hinv. cbn [request_of within] in Hq.
    rewrite Hm, Hid in Hq. injection Hq as <-.
    apply Hlen. exact (invoke_sequence _ _ _ _ _ _ _ Hinv Hcall).
Qed.

Lemma listing_count_matches_records_witness :
  exists fields sats,
    noaa_answer = VObj fields
    /\ lookup "satellites" fields = Some (VArr sats)
    /\ lookup "count" fields = Some (VNum (Z.of_nat (length sats)))
    /\ forall q elts w1,
         request_of (ToolSearchByName "noaa") = Some q ->
         invoke (init "KEY") q (fresh above_equator)
         = (Ok (Sequence (VArr elts)), w1) ->
         length sats = length elts.
Proof.
  exact (listing_count_matches_records engine_message
           "2026-11-03T00:00:00.000Z" (init "KEY")
           (ToolSearchByName "noaa") (fresh above_equator) noaa_answer
           {| upstream := above_equator;
              log := [Get "/above//0/0/0/90/0/&apiKey=KEY"] |}
           eq_refl ltac:(discriminate)).
Defined.

(** ** Category labels *)

Lemma category_label_known id :
  ((0 <=? id) && (id <=? 30))%Z = true ->
  exists name, In (id, name) CATEGORY_MAPPING /\ category_label id = VStr name.
Proof.
  intros H. apply andb_prop in H as [H1 H2].
  apply Z.leb_le in H1, H2.
  rewrite <- (Z2Nat.id id) by lia.
  assert (Hn : Z.to_nat id < 31) by lia.
  revert Hn. generalize (Z.to_nat id) as n. intros n Hn.
  do 31 (destruct n as [| n];
         [ eexists; split; [ | reflexivity ];
           repeat (first [ left; reflexivity | right ]) | ]).
  lia.
Qed.

Lemma tle_tool_inv message_of now c norad_id w payload w' :
  getSatelliteTLETool message_of now c norad_id w = (Ok payload, w') ->
  exists name l1 l2 l3,
    payload = VObj [ ("satellite_id", VNum norad_id);
                     ("satellite_name", name);
                     ("tle", VObj [ ("line1", l1); ("line2", l2);
                                    ("line3", l3) ]);
                     ("updated", VStr now) ].
Proof.
  intros H. apply rethrow_as_ok in H. revert H.
  destruct (negb (Number_isInteger norad_id) || (norad_id <=? 0)%Z);
    [ discriminate | ].
  intros H. apply bind_ok in H as [r [w1 [_ H]]].
  destruct (negb (truthy (tle r))); [ discriminate | ].
  destruct (tle r); try discriminate.
  injection H as <- _. do 4 eexists. reflexivity.
Qed.

(** X18. No answer of a tool carries the fallback label "Unknown (n)": the
    category label of an answer is [null] (search by name) or a name of the
    category table. *)
Theorem tools_never_label_unknown
    message_of now c t w fields w' key v :
  run_tool message_of now c t w = (Ok (VObj fields), w') ->
  key = "category" \/ key = "category_name" ->
  lookup key fields = Some v ->
  v = VNull
  \/ exists id name, In (id, name) CATEGORY_MAPPING /\ v = VStr name.
Proof.
  intros H Hkey Hv.
  destruct t as [norad_id | args | query | category_id | uri];
    cbn [run_tool] in H.
  - apply tle_tool_inv in H as [name [l1 [l2 [l3 [= ->]]]]].
    destruct Hkey as [-> | ->]; discriminate.
  - apply above_tool_inv in H as [satellites [w1 [Hq [_ Hp]]]].
    assert (Hcat : exists id name,
               In (id, name) CATEGORY_MAPPING
               /\ match AboveArgs.category_id args with
                  | Some id => category_label id
                  | None => VStr "All"
                  end = VStr name).
    { cbn [request_of] in Hq.
      destruct (within (-90) 90 _ && _ && _ && within 0 30 _) eqn:Hc;
        [ | discriminate ].
      apply andb_prop in Hc as [_ Hc].
      destruct (AboveArgs.category_id args) as [id |].
      - destruct (category_label_known id Hc) as [name [Hin Hl]].
        exists id, name. split; assumption.
      - exists 0%Z, "All". split; [ left; reflexivity | reflexivity ]. }
    destruct Hcat as [id [name [Hin Hl]]].
    right. exists id, name. split; [ exact Hin | ].
    unfold above_payload in Hp. rewrite Hl in Hp.
    destruct Hp as [[_ [= ->]] | [formatted [_ [_ [= ->]]]]];
      destruct Hkey as [-> | ->]; cbn in Hv; congruence.
  - apply search_by_name_inv in H as [satellites [w1 [_ Hp]]].
    left.
    destruct Hp as [[_ [= ->]] | [formatted [_ [_ [= ->]]]]];
      destruct Hkey as [-> | ->]; cbn in Hv; congruence.
  - apply search_by_category_inv in H
      as [id [satellites [w1 [-> [Hid [_ Hp]]]]]].
    destruct (category_label_known id Hid) as [name [Hin Hl]].
    right. exists id, name. split; [ exact Hin | ].
    rewrite Hl in Hp.
    destruct Hp as [[_ [= ->]] | [formatted [_ [_ [= ->]]]]];
      destruct Hkey as [-> | ->]; cbn in Hv; congruence.
  - apply category_resource_inv in H
      as [id [satellites [w1 [_ [Hid [_ Hp]]]]]].
    destruct (category_label_known id Hid) as [name [Hin Hl]].
    right. exists id, name. split; [ exact Hin | ].
    rewrite Hl in Hp.
    destruct Hp as [[_ [= ->]] | [formatted [_ [_ [= ->]]]]];
      destruct Hkey as [-> | ->]; cbn in Hv; congruence.
Qed.

Lemma tools_never_label_unknown_witness :
  VStr "Starlink" = VNull
  \/ exists id name,
       In (id, name) CATEGORY_MAPPING /\ VStr "Starlink" = VStr name.
Proof.
  exact (tools_never_label_unknown engine_message "2026-11-03T00:00:00.000Z"
           (init "KEY") (ToolSearchByCategory (Some 29%Z))
           (fresh no_above_field) starlink_fields
           {| upstream := no_above_field;
              log := [Get "/above//0/0/0/90/29/&apiKey=KEY"] |}
           "category" (VStr "Starlink")
           eq_refl (or_introl eq_refl) eq_refl).
Defined.

(** ** The category resource *)

Lemma strip_prefix_app p s : strip_prefix p (p ++ s) = Some s.
Proof.
  induction p as [| a p IH]; simpl.
  - now destruct s.
  - now rewrite Ascii.eqb_refl.
Qed.

(** Reading back the numeral of a natural number gives the number. *)
Lemma parse_num n :
  (0 <= n)%Z ->
  option_map Z.of_uint (NilZero.uint_of_string (num n)) = Some n.
Proof.
  intros Hn. destruct n as [| p | p]; [ reflexivity | | lia ].
  unfold num. cbn [Z.to_int NilZero.string_of_int].
  rewrite NilZero.usu by apply DecimalPos.Unsigned.to_uint_nonnil.
  cbn [option_map]. f_equal. unfold Z.of_uint.
  now rewrite DecimalPos.Unsigned.of_to.
Qed.

(** X19. The resource URI of a category round-trips: for a category [n]
    between 0 and 30, reading [satellites://category/n] asks upstream for the
    satellites above the equator at radius 90 in category [n], and every
    answer carries [n] and its name in the category table. *)
Theorem category_resource_reads_its_uri message_of now c n w :
  (0 <= n <= 30)%Z ->
  snd (getSatellitesCategoryResource message_of now c
         ("satellites://category/" ++ num n) w)
  = snd (getAbove c (AboveParams.mk 0 0 None (Some 90%Z) (Some n)) w)
  /\ forall payload w',
       getSatellitesCategoryResource message_of now c
         ("satellites://category/" ++ num n) w = (Ok payload, w') ->
       exists fields name,
         payload = VObj fields
         /\ lookup "category_id" fields = Some (VNum n)
         /\ In (n, name) CATEGORY_MAPPING
         /\ lookup "category_name" fields = Some (VStr name).
Proof.
  intros Hn.
  assert (Hm : match_number "satellites://category/"
                 ("satellites://category/" ++ num n) = Some n).
  { unfold match_number. rewrite strip_prefix_app. apply parse_num. lia. }
  assert (Hr : ((0 <=? n) && (n <=? 30))%Z = true).
  { apply andb_true_intro. split; apply Z.leb_le; lia. }
  split.
  - unfold getSatellitesCategoryResource. rewrite rethrow_as_snd, Hm.
    unfold Number_isInteger. cbn [negb orb]. rewrite out_of_range, Hr.
    cbn [negb]. apply bind_snd. intros. world_after.
  - intros payload w' H.
    apply category_resource_inv in H
      as [id [satellites [w1 [Hm' [_ [_ Hp]]]]]].
    rewrite Hm in Hm'. injection Hm' as <-.
    destruct (category_label_known n Hr) as [name [Hin Hl]].
    rewrite Hl in Hp.
    destruct Hp as [[_ ->] | [formatted [_ [_ ->]]]];
      eexists; exists name; repeat split; assumption.
Qed.

Lemma category_resource_reads_its_uri_witness :
  snd (getSatellitesCategoryResource engine_message
         "2026-11-03T00:00:00.000Z" (init "KEY")
         "satellites://category/29" (fresh no_above_field))
  = {| upstream := no_above_field;
       log := [Get "/above//0/0/0/90/29/&apiKey=KEY"] |}.
Proof.
  exact (proj1 (category_resource_reads_its_uri engine_message
                  "2026-11-03T00:00:00.000Z" (init "KEY") 29
                  (fresh no_above_field) ltac:(lia))).
Defined.

(** X20. When the record that the client returns has no element set (the
    [tle] is absent, [null] or empty), the TLE tool throws the invalid-request
    error "No TLE data found for satellite with NORAD ID: <id>", after the
    client's requests. *)
Theorem tle_tool_reports_missing_tle message_of now c norad_id w r w' :
  (0 < norad_id)%Z ->
  getTLE c norad_id w = (Ok r, w') ->
  truthy (tle r) = false ->
  getSatelliteTLETool message_of now c norad_id w
  = (Throw (McpError InvalidRequest
              ("No TLE data found for satellite with NORAD ID: "
                 ++ num norad_id)), w').
Proof.
  intros Hid Hcall Htle.
  unfold getSatelliteTLETool, Number_isInteger, rethrow_as, bind.
  cbn [negb orb].
  replace (norad_id <=? 0)%Z with false by (symmetry; apply Z.leb_gt; lia).
  rewrite Hcall, Htle. reflexivity.
Qed.

Lemma tle_tool_reports_missing_tle_witness :
  getSatelliteTLETool engine_message "2026-11-03T00:00:00.000Z" (init "KEY")
    25544 (fresh no_above_field)
  = (Throw (McpError InvalidRequest
              "No TLE data found for satellite with NORAD ID: 25544"),
     {| upstream := no_above_field;
        log := [Get "/tle//25544/&apiKey=KEY"] |}).
Proof.
  exact (tle_tool_reports_missing_tle engine_message
           "2026-11-03T00:00:00.000Z" (init "KEY") 25544
           (fresh no_above_field)
           {| satid := 25544; satname := VStr "Satellite 25544";
              transactionscount := VNum 0; tle := VUndefined |}
           _ eq_refl eq_refl eq_refl).
Defined.
